(** * prefect.utilities.executors: Heartbeat, run_with_heartbeat, timeout_handler

    A shallow embedding of [src/prefect/utilities/executors.py].  Python
    values, exceptions and the two outcomes of a call (return / raise) are
    modelled in [Py]; the [Heartbeat] class and the [run_with_heartbeat]
    decorator in [Hb]; [timeout_handler] in [Th].  Threads are modelled by
    what each of them does: the calling thread by a trace of events in
    program order, a loop or worker thread by the events of its whole run,
    given the values it reads from the other side (the flag [_exit], the
    time a task takes).  The facts proved about the two parts are in
    [HbFacts] and [ThFacts], further ones in [HbMore] and [ThMore]. *)

From Stdlib Require Import ZArith Lia List.
From stdpp Require Import gmap strings list.

Local Open Scope Z_scope.

(** ** Python values, exceptions and outcomes *)

Module Py.

Inductive value : Type :=
| VNone
| VBool (b : bool)
| VInt (n : Z)
| VStr (s : string).

(** The exception classes the module can meet.  [FutureTimeout] is
    [concurrent.futures.TimeoutError] under the name the source imports
    it by; [TimeoutError] is the builtin.  [KeyboardInterrupt] and
    [SystemExit] derive from [BaseException] only. *)
Inductive exn_class : Type :=
| Exception
| TypeError
| AttributeError
| RuntimeError
| ZeroDivisionError
| ValueError
| OverflowError
| TimeoutError
| FutureTimeout
| KeyboardInterrupt
| SystemExit.

Record exn : Type := Exn { class_of : exn_class; message : string }.

(** [isinstance(e, Exception)] *)
Definition is_Exception (e : exn) : bool :=
  match class_of e with
  | KeyboardInterrupt | SystemExit => false
  | _ => true
  end.

(** [isinstance(e, FutureTimeout)] *)
Definition is_FutureTimeout (e : exn) : bool :=
  match class_of e with
  | FutureTimeout => true
  | _ => false
  end.

(** How a call that comes back ends. *)
Inductive result (A : Type) : Type :=
| Return (a : A)
| Raise (e : exn).
Arguments Return {A} a.
Arguments Raise {A} e.

(** [a % b] on Python integers: floor modulo, [ZeroDivisionError] on a
    zero divisor. *)
Definition py_mod (a b : Z) : result Z :=
  if b =? 0 then Raise (Exn ZeroDivisionError "integer division or modulo by zero")
  else Return (a mod b).

(** [round(n)] of an integer is that integer. *)
Definition round (n : Z) : Z := n.

(** [min(a, b)] on integers. *)
Definition min (a b : Z) : Z := if b <? a then b else a.

(** The largest number of seconds that fits the interpreter's C time
    type (signed 64-bit nanoseconds), and the largest timeout a lock
    accepts, [threading.TIMEOUT_MAX]. *)
Definition TIME_MAX : Z := 9223372036.
Definition TIMEOUT_MAX : Z := 9223372036.

(** [time.sleep(secs)] on an integer: the length is converted to the C
    time type first, [OverflowError] when it does not fit; then a
    negative length is refused. *)
Definition sleep (secs : Z) : result unit :=
  if (secs <? - TIME_MAX) || (TIME_MAX <? secs)
  then Raise (Exn OverflowError "timestamp too large to convert to C _PyTime_t")
  else if secs <? 0 then Raise (Exn ValueError "sleep length must be non-negative")
  else Return tt.

(** Positional arguments of a call; keyword arguments are a
    [gmap string value], a Python dict with string keys. *)
Definition args : Type := list value.

(** [concurrent.futures.ThreadPoolExecutor], as far as the module uses
    it: the [max_workers] it was built with (if any), its [_shutdown]
    flag and the number of tasks it was given. *)
Record Executor : Type := {
  max_workers : option Z;
  _shutdown : bool;
  submitted : nat
}.

End Py.

Import Py.

(** ** Heartbeat and run_with_heartbeat *)

Module Hb.

(** What the loop thread does: call [self.function()] or
    [time.sleep(secs)]. *)
Inductive loop_event : Type :=
| Beat (n : nat)
| Sleep (secs : Z).

(** Where the loop thread stands after the tests of [self._exit] it has
    made so far: it left the [while], an exception ended it (kept in the
    future, which nobody reads), or it is still looping with counter
    [iters]. *)
Inductive loop_end : Type :=
| Exited
| Died (e : exn)
| Running (iters : Z).

(** The callback: the outcome of its [n]-th invocation. *)
Definition callback : Type := nat -> result value.

(** class Heartbeat.  [executor] and [fut] are attributes that exist only
    after [start()]. *)
Record Heartbeat : Type := {
  interval : Z;
  rate : Z;
  function : callback;
  _exit : bool;
  executor : option Executor;
  fut : option loop_end
}.

(** Heartbeat.__init__ *)
Definition Heartbeat__init__ (interval : Z) (function : callback) : Heartbeat :=
  {| interval := interval;
     rate := Py.min interval 1;
     function := function;
     _exit := false;
     executor := None;
     fut := None |}.

(** The body of the [while] in [looper], from counter [iters] with [n]
    callback invocations made so far: the events it performs and either
    the next counter and invocation count, or the exception that ends
    the loop. *)
Definition looper_body (self : Heartbeat) (iters : Z) (n : nat)
  : list loop_event * result (Z * nat) :=
  match py_mod iters (rate self) with
  | Raise e => ([], Raise e)
  | Return m =>
      let beat := round m =? 0 in
      let called :=
        if beat then
          match function self n with
          | Return _ => ([Beat n], Return (S n))
          | Raise e => ([Beat n], Raise e)
          end
        else ([], Return n) in
      match called with
      | (evs, Raise e) => (evs, Raise e)
      | (evs, Return n') =>
          match py_mod (iters + 1) (interval self) with
          | Raise e => (evs, Raise e)
          | Return iters' =>
              match sleep (rate self) with
              | Raise e => (evs, Raise e)
              | Return _ => (evs ++ [Sleep (rate self)], Return (iters', n'))
              end
          end
      end
  end.

(** [looper], run against the values [flags] that the successive tests
    [while not self._exit] read.  When [flags] is used up the loop is
    still running. *)
Fixpoint looper_from (self : Heartbeat) (flags : list bool) (iters : Z) (n : nat)
  : list loop_event * loop_end :=
  match flags with
  | [] => ([], Running iters)
  | true :: _ => ([], Exited)
  | false :: flags' =>
      match looper_body self iters n with
      | (evs, Raise e) => (evs, Died e)
      | (evs, Return (iters', n')) =>
          let '(rest, fin) := looper_from self flags' iters' n' in
          (evs ++ rest, fin)
      end
  end.

(** [looper()]: [iters = 0] on entry; [n0] is the number of callback
    invocations already made when the loop starts. *)
Definition looper (self : Heartbeat) (flags : list bool) (n0 : nat)
  : list loop_event * loop_end :=
  looper_from self flags 0 n0.

(** *** The calling thread *)

(** What the thread that owns the Heartbeat does, in program order. *)
Inductive event : Type :=
| EvProbe (n : nat)
| EvPool (workers : Z)
| EvSubmit
| EvLog (msg : string)
| EvRun (a : args) (kw : gmap string value)
| EvCancel
| EvShutdown.

Definition is_cancel (ev : event) : bool :=
  match ev with EvCancel => true | _ => false end.
Definition is_shutdown (ev : event) : bool :=
  match ev with EvShutdown => true | _ => false end.
Definition is_submit (ev : event) : bool :=
  match ev with EvSubmit => true | _ => false end.
Definition is_run (ev : event) : bool :=
  match ev with EvRun _ _ => true | _ => false end.
Definition is_log (ev : event) : bool :=
  match ev with EvLog _ => true | _ => false end.

(** The Heartbeat object [timer], the events of the calling thread
    ([EvProbe n]: [self._heartbeat()] called directly; [EvPool],
    [EvSubmit], [EvShutdown]: the executor built, given [looper], shut
    down; [EvLog]: [self.logger.exception]; [EvRun]: the wrapped method;
    [EvCancel]: [cancel()] entered), the events of the loop threads
    launched so far, and the number of direct callback invocations. *)
Record state : Type := {
  timer : Heartbeat;
  trace : list event;
  background : list loop_event;
  calls : nat
}.

Definition init_state (h : Heartbeat) : state :=
  {| timer := h; trace := []; background := []; calls := 0 |}.

(** A computation on that state which returns or raises. *)
Definition M (A : Type) : Type := state -> result A * state.

Definition ret {A} (a : A) : M A := fun s => (Return a, s).
Definition raise {A} (e : exn) : M A := fun s => (Raise e, s).
Definition bind {A B} (m : M A) (k : A -> M B) : M B := fun s =>
  match m s with
  | (Return a, s') => k a s'
  | (Raise e, s') => (Raise e, s')
  end.

Declare Scope py_scope.
Delimit Scope py_scope with py.
Notation "x <- m ;; k" := (bind m (fun x => k))
  (at level 100, m at next level, right associativity) : py_scope.
Notation "m ;; k" := (bind m (fun _ => k))
  (at level 100, right associativity) : py_scope.
Local Open Scope py_scope.

(** [try: body] / [except Exception as exc: handler exc] *)
Definition try_except_Exception {A} (body : M A) (handler : exn -> M A) : M A :=
  fun s =>
    match body s with
    | (Raise e, s') => if is_Exception e then handler e s' else (Raise e, s')
    | (Return a, s') => (Return a, s')
    end.

(** [try: body] / [finally: fin]: [fin] runs on every way out of
    [body]; an exception of [fin] replaces the outcome of [body]. *)
Definition try_finally {A} (body : M A) (fin : M unit) : M A :=
  fun s =>
    let '(r, s') := body s in
    match fin s' with
    | (Return _, s'') => (r, s'')
    | (Raise e, s'') => (Raise e, s'')
    end.

Definition emit (ev : event) : M unit := fun s =>
  (Return tt,
   {| timer := timer s; trace := trace s ++ [ev];
      background := background s; calls := calls s |}).

Definition update_timer (f : Heartbeat -> Heartbeat) : M unit := fun s =>
  (Return tt,
   {| timer := f (timer s); trace := trace s;
      background := background s; calls := calls s |}).

Definition set_executor (ex : Executor) (h : Heartbeat) : Heartbeat :=
  {| interval := interval h; rate := rate h; function := function h;
     _exit := _exit h; executor := Some ex; fut := fut h |}.
Definition set_fut (f : loop_end) (h : Heartbeat) : Heartbeat :=
  {| interval := interval h; rate := rate h; function := function h;
     _exit := _exit h; executor := executor h; fut := Some f |}.
Definition set_exit (b : bool) (h : Heartbeat) : Heartbeat :=
  {| interval := interval h; rate := rate h; function := function h;
     _exit := b; executor := executor h; fut := fut h |}.

(** [ThreadPoolExecutor(max_workers=n)] *)
Definition ThreadPoolExecutor (n : Z) : M Executor :=
  if n <=? 0 then raise (Exn ValueError "max_workers must be greater than 0")
  else emit (EvPool n) ;;
       ret {| max_workers := Some n; _shutdown := false; submitted := 0 |}.

(** [self.executor]: an [AttributeError] before [start()]. *)
Definition get_executor : M Executor := fun s =>
  match executor (timer s) with
  | Some ex => (Return ex, s)
  | None => (Raise (Exn AttributeError "'Heartbeat' object has no attribute 'executor'"), s)
  end.

(** [hasattr(self, "executor")] *)
Definition hasattr_executor : M bool := fun s =>
  (Return (match executor (timer s) with Some _ => true | None => false end), s).

Section Environment.

(** What the tests of [self._exit] made by a loop thread read, one
    after the other. *)
Variable flags : list bool.

(** [self.executor.submit(looper)]: refused by a pool that was shut
    down; otherwise a worker thread runs [looper], and the future
    stands for how it ends. *)
Definition submit_looper : M loop_end :=
  ex <- get_executor ;;
  if _shutdown ex then
    raise (Exn RuntimeError "cannot schedule new futures after shutdown")
  else
    emit EvSubmit ;;
    update_timer (set_executor
      {| max_workers := max_workers ex; _shutdown := false;
         submitted := S (submitted ex) |}) ;;
    fun s =>
      let '(evs, fin) := looper (timer s) flags (calls s) in
      (Return fin,
       {| timer := timer s; trace := trace s;
          background := background s ++ evs; calls := calls s |}).

(** Heartbeat.start *)
Definition start : M unit :=
  ex <- ThreadPoolExecutor 2 ;;
  update_timer (set_executor ex) ;;
  f <- submit_looper ;;
  update_timer (set_fut f).

(** [self.executor.shutdown()]: marks the pool and waits for its
    worker threads. *)
Definition shutdown : M unit :=
  ex <- get_executor ;;
  emit EvShutdown ;;
  update_timer (set_executor
    {| max_workers := max_workers ex; _shutdown := true;
       submitted := submitted ex |}).

(** Heartbeat.cancel *)
Definition cancel : M unit :=
  emit EvCancel ;;
  update_timer (set_exit true) ;;
  has <- hasattr_executor ;;
  if has then shutdown else ret tt.

(** *** run_with_heartbeat *)

(** Truth value of a Python object, as [if] tests it. *)
Definition truthy (v : value) : bool :=
  match v with
  | VNone => false
  | VBool b => b
  | VInt n => negb (n =? 0)
  | VStr s => negb (String.eqb s "")
  end.

(** The runner: [self._heartbeat], given by the outcome of its [n]-th
    invocation. *)
Record Runner : Type := { _heartbeat : callback }.

(** A runner method: [runner_method(self, *args, **kwargs)]. *)
Definition method : Type := Runner -> args -> gmap string value -> result value.

(** [self._heartbeat()] called on the calling thread *)
Definition call_heartbeat (self : Runner) : M value := fun s =>
  (_heartbeat self (calls s),
   {| timer := timer s; trace := trace s ++ [EvProbe (calls s)];
      background := background s; calls := S (calls s) |}).

(** [self.logger.exception(msg)] *)
Definition logger_exception (msg : string) : M unit := emit (EvLog msg).

(** [runner_method(self, *args, **kwargs)] *)
Definition call_method (runner_method : method) (self : Runner)
    (a : args) (kw : gmap string value) : M value :=
  emit (EvRun a kw) ;; fun s => (runner_method self a kw, s).

(** [prefect.config.cloud.heartbeat_interval] *)
Variable heartbeat_interval : Z.

(** The [try] block of [inner]: the probe, guarded by
    [except Exception], then the wrapped method. *)
Definition inner_try (runner_method : method) (self : Runner)
    (a : args) (kw : gmap string value) : M value :=
  try_except_Exception
    (v <- call_heartbeat self ;;
     if truthy v then start else ret tt)
    (fun exc =>
       logger_exception
         "Heartbeat failed to start.  This could result in a zombie run.") ;;
  call_method runner_method self a kw.

(** [inner] of [run_with_heartbeat]: the outcome of the call and the
    state it leaves. *)
Definition inner (runner_method : method) (self : Runner)
    (a : args) (kw : gmap string value) : result value * state :=
  let timer := Heartbeat__init__ heartbeat_interval (_heartbeat self) in
  try_finally (inner_try runner_method self a kw) cancel (init_state timer).

Definition run_with_heartbeat (runner_method : method)
  : Runner -> args -> gmap string value -> result value * state :=
  inner runner_method.

End Environment.

(** *** The loop as the specification words it *)

(** The tick rate of the specification: [min(interval, 1)]. *)
Definition tickRate (interval : Z) : Z := Z.min interval 1.

(** The loop of the specification: a tick counter [i]; on each tick the
    callback is invoked if [i mod tickRate = 0], [i] is incremented
    modulo [interval], the loop sleeps [tickRate] seconds; this repeats
    until the running flag is cleared.  [running] lists the values of
    the flag that the loop reads; a failure of the callback propagates
    and ends the loop. *)
Fixpoint spec_loop (interval : Z) (cb : callback) (running : list bool)
    (i : Z) (n : nat) : list loop_event * loop_end :=
  match running with
  | [] => ([], Running i)
  | false :: _ => ([], Exited)
  | true :: running' =>
      if i mod tickRate interval =? 0 then
        match cb n with
        | Raise e => ([Beat n], Died e)
        | Return _ =>
            let '(rest, fin) :=
              spec_loop interval cb running' ((i + 1) mod interval) (S n) in
            (Beat n :: Sleep (tickRate interval) :: rest, fin)
        end
      else
        let '(rest, fin) :=
          spec_loop interval cb running' ((i + 1) mod interval) n in
        (Sleep (tickRate interval) :: rest, fin)
  end.

(** *** States named in the statements below *)

(** The state [start()] leaves. *)
Definition started (flags : list bool) (s : state) : state :=
  let lp := looper (timer s) flags (calls s) in
  {| timer :=
       set_fut (snd lp)
         (set_executor {| max_workers := Some 2; _shutdown := false; submitted := 1 |}
            (timer s));
     trace := trace s ++ [EvPool 2; EvSubmit];
     background := background s ++ fst lp;
     calls := calls s |}.

(** The state [cancel()] leaves. *)
Definition cancelled (s : state) : state :=
  match executor (timer s) with
  | None =>
      {| timer := set_exit true (timer s); trace := trace s ++ [EvCancel];
         background := background s; calls := calls s |}
  | Some ex =>
      {| timer :=
           set_executor {| max_workers := max_workers ex; _shutdown := true;
                           submitted := submitted ex |}
             (set_exit true (timer s));
         trace := trace s ++ [EvCancel; EvShutdown];
         background := background s; calls := calls s |}
  end.

(** The state one direct call of [self._heartbeat()] leaves, and the
    state after one more event. *)
Definition probed (s : state) : state :=
  {| timer := timer s; trace := trace s ++ [EvProbe (calls s)];
     background := background s; calls := S (calls s) |}.
Definition recorded (ev : event) (s : state) : state := snd (emit ev s).

(** The message [inner] logs. *)
Definition failed_to_start : string :=
  "Heartbeat failed to start.  This could result in a zombie run.".

(** *** Sequences of method calls on one Heartbeat *)

Inductive method_call : Type := CallStart | CallCancel.

Fixpoint run_calls (flags : list bool) (cs : list method_call) : M unit :=
  match cs with
  | [] => ret tt
  | CallStart :: cs' => start flags ;; run_calls flags cs'
  | CallCancel :: cs' => cancel ;; run_calls flags cs'
  end.

(** *** Inputs and statements used below *)

(** Runners whose probe answers [True], answers [False], raises an
    [Exception], is interrupted. *)
Definition alive : callback := fun _ => Return (VBool true).
Definition beating : Runner := {| _heartbeat := alive |}.
Definition quiet : Runner := {| _heartbeat := fun _ => Return (VBool false) |}.
Definition broken : Runner :=
  {| _heartbeat := fun _ => Raise (Exn Exception "no backend") |}.
Definition interrupted : Runner :=
  {| _heartbeat := fun _ => Raise (Exn KeyboardInterrupt "") |}.

(** A runner method that returns 7. *)
Definition returns_seven : method := fun _ _ _ => Return (VInt 7).

(** The sentence "if the probe raises, the failure is recorded, no loop
    is started and the wrapped operation is still invoked, its result or
    failure coming back unchanged" at one call. *)
Definition probe_raises_claim (flags : list bool) (hi : Z) (rm : method)
    (self : Runner) (a : args) (kw : gmap string value) : Prop :=
  (exists e, _heartbeat self 0%nat = Raise e) ->
  let out := inner flags hi rm self a kw in
  fst out = rm self a kw /\
  filter is_log (trace (snd out)) = [EvLog failed_to_start] /\
  filter is_submit (trace (snd out)) = [] /\
  filter is_run (trace (snd out)) = [EvRun a kw].

(** *** More inputs and statements *)

(** A callback that answers twice and is lost from its third invocation
    on. *)
Definition lost_at_third : callback :=
  fun n => if (n <? 2)%nat then Return VNone
           else Raise (Exn Exception "connection lost").

(** A runner whose probe answers a non-empty string. *)
Definition chatty : Runner := {| _heartbeat := fun _ => Return (VStr "ok") |}.

(** What holds of the attributes [start()] adds to a Heartbeat: [executor]
    and [fut] exist together; the executor was built for two workers and
    was given one task; it is shut down only once [_exit] is set. *)
Definition consistent (h : Heartbeat) : Prop :=
  (executor h = None <-> fut h = None) /\
  (forall ex, executor h = Some ex ->
     max_workers ex = Some 2 /\ submitted ex = 1%nat /\
     (_shutdown ex = true -> _exit h = true)).

(** How two loops end alike: both left, both died of the same exception,
    or both are still running. *)
Definition same_end (e1 e2 : loop_end) : Prop :=
  match e1, e2 with
  | Exited, Exited => True
  | Died x, Died y => x = y
  | Running _, Running _ => True
  | _, _ => False
  end.

End Hb.

(** ** timeout_handler *)

Module Th.

(** Threads are numbered. *)
Definition tid : Type := nat.

(** How one call of a callable runs: it comes back after [secs] seconds
    with an outcome, or never comes back. *)
Inductive run : Type :=
| Finishes (secs : Z) (o : result value)
| Hangs.

(** A callable [fn]: how [fn( *args, **kwargs)] runs under the context
    that is active on its thread. *)
Definition callable : Type :=
  args -> gmap string value -> gmap string value -> run.

(** How a call on the calling thread ends, if it ends. *)
Inductive outcome (A : Type) : Type :=
| Done (r : result A)
| NoReturn.
Arguments Done {A} r.
Arguments NoReturn {A}.

(** [EvCall t a kw ctx]: [fn( *a, **kw)] entered on thread [t] while
    [ctx] is the context active there.  [EvPool]: [ThreadPoolExecutor()].
    [EvToDict t]: [prefect.context.to_dict()] on [t].  [EvSubmit w]: the
    task handed to worker thread [w].  [EvRestore w ctx], [EvRevert w]:
    the [with prefect.context(...)] block entered and left on [w]. *)
Inductive event : Type :=
| EvCall (t : tid) (a : args) (kw ctx : gmap string value)
| EvPool
| EvToDict (t : tid)
| EvSubmit (w : tid)
| EvRestore (w : tid) (ctx : gmap string value)
| EvRevert (w : tid)
| EvShutdown.

Definition is_pool (ev : event) : bool :=
  match ev with EvPool => true | _ => false end.
Definition is_submit (ev : event) : bool :=
  match ev with EvSubmit _ => true | _ => false end.
Definition is_call (ev : event) : bool :=
  match ev with EvCall _ _ _ _ => true | _ => false end.
Definition is_shutdown (ev : event) : bool :=
  match ev with EvShutdown => true | _ => false end.

(** [prefect.context] is thread-local: [context] gives its content on
    each thread that has one.  [pool] is the executor of the call in
    progress, [trace] the events so far. *)
Record state : Type := {
  context : gmap tid (gmap string value);
  pool : option Executor;
  trace : list event
}.

Definition ctx_of (t : tid) (s : state) : gmap string value :=
  default ∅ (context s !! t).

Definition emit (ev : event) (s : state) : state :=
  {| context := context s; pool := pool s; trace := trace s ++ [ev] |}.

Definition set_context (c : gmap tid (gmap string value)) (s : state) : state :=
  {| context := c; pool := pool s; trace := trace s |}.

Definition set_pool (p : option Executor) (s : state) : state :=
  {| context := context s; pool := p; trace := trace s |}.

(** Whether the executor of the call has been shut down. *)
Definition released (s : state) : bool :=
  match pool s with
  | Some ex => _shutdown ex
  | None => false
  end.

(** [fn( *a, **kw)] on thread [t]. *)
Definition call (fn : callable) (t : tid) (a : args) (kw : gmap string value)
    (s : state) : run * state :=
  let ctx := ctx_of t s in
  (fn a kw ctx, emit (EvCall t a kw ctx) s).

(** Modelled from the spec: [prefect.context.to_dict()], which is not
    in the source file.  It is [capture() -> ContextSnapshot]: a copy of
    the context of the thread that asks, never shared by reference. *)
Definition to_dict (t : tid) (s : state) : gmap string value * state :=
  (ctx_of t s, emit (EvToDict t) s).

(** Modelled from the spec: [with prefect.context(snapshot): body],
    which is not in the source file.  It is [restore(ContextSnapshot)]:
    the snapshot becomes the context of the thread for the duration of
    [body] and the previous content comes back when [body] is left, by
    return or by exception. *)
Definition with_context (t : tid) (snapshot : gmap string value)
    (body : state -> run * state) (s : state) : run * state :=
  let previous := context s !! t in
  let s1 := emit (EvRestore t snapshot) (set_context (<[t := snapshot]> (context s)) s) in
  match body s1 with
  | (Finishes secs o, s2) =>
      (Finishes secs o,
       emit (EvRevert t)
         (set_context
            (match previous with
             | Some c => <[t := c]> (context s2)
             | None => delete t (context s2)
             end) s2))
  | (Hangs, s2) => (Hangs, s2)
  end.

(** [run_with_ctx( *args, _ctx_dict=..., **kwargs)] of [timeout_handler],
    on thread [t]. *)
Definition run_with_ctx (fn : callable) (t : tid) (a : args)
    (_ctx_dict : gmap string value) (kw : gmap string value)
    : state -> run * state :=
  with_context t _ctx_dict (call fn t a kw).

(** A call [f(..., name=..., **kw)]: [TypeError] when [kw] has the key
    [name] too. *)
Definition keyword_with (f name : string) (kw : gmap string value) : result unit :=
  match kw !! name with
  | Some _ =>
      Raise (Exn TypeError
               (f +:+ "() got multiple values for keyword argument '" +:+ name +:+ "'"))
  | None => Return tt
  end.

(** The [TypeError] of a call of [submit] that is given [_ctx_dict]
    twice. *)
Definition duplicate_ctx_dict : exn :=
  Exn TypeError "submit() got multiple values for keyword argument '_ctx_dict'".

(** [self._condition.wait(timeout)] of a future that is not finished: a
    timeout above [threading.TIMEOUT_MAX] is refused with
    [OverflowError] before any waiting. *)
Definition Condition_wait (timeout : Z) : result unit :=
  if TIMEOUT_MAX <? timeout
  then Raise (Exn OverflowError "timeout value is too large")
  else Return tt.

(** [fut.result(timeout=timeout)] for a task that runs as [r]: the
    outcome of the task when it is finished at the call; otherwise the
    wait is made, and the outcome is that of the task when it ends
    within [timeout] seconds, [FutureTimeout] when it does not. *)
Definition Future_result (r : run) (timeout : Z) : result value :=
  match r with
  | Finishes secs o =>
      if secs <=? 0 then o
      else
        match Condition_wait timeout with
        | Raise e => Raise e
        | Return _ => if secs <=? timeout then o else Raise (Exn FutureTimeout "")
        end
  | Hangs =>
      match Condition_wait timeout with
      | Raise e => Raise e
      | Return _ => Raise (Exn FutureTimeout "")
      end
  end.

(** Whether [fut.result(timeout=timeout)] finds the task finished: at
    the call, or at the end of a wait that the lock accepts. *)
Definition finished_in (r : run) (timeout : Z) : bool :=
  match r with
  | Finishes secs _ =>
      (secs <=? 0) || ((timeout <=? TIMEOUT_MAX) && (secs <=? timeout))
  | Hangs => false
  end.

(** The call [timeout_handler(fn, *a, timeout=..., **kw)] binds its
    arguments to the signature [(fn, *args, timeout=None, **kwargs)]:
    [kw] may not give [timeout] a second time, nor give the positional
    [fn] by keyword. *)
Definition bind_arguments (kw : gmap string value) : result unit :=
  match kw !! "timeout" with
  | Some _ =>
      Raise (Exn TypeError
               "timeout_handler() got multiple values for keyword argument 'timeout'")
  | None =>
      match kw !! "fn" with
      | Some _ =>
          Raise (Exn TypeError "timeout_handler() got multiple values for argument 'fn'")
      | None => Return tt
      end
  end.

(** Keyword arguments that the signature of [timeout_handler] leaves to
    [**kwargs]. *)
Definition binds (kw : gmap string value) : Prop :=
  kw !! "timeout" = None /\ kw !! "fn" = None.

(** [try: return fut.result(timeout=t)] / [except FutureTimeout: raise
    TimeoutError("Execution timed out.")] for a task that runs as [r]. *)
Definition waited (r : run) (t : Z) : result value :=
  match Future_result r t with
  | Return v => Return v
  | Raise e => if is_FutureTimeout e
               then Raise (Exn TimeoutError "Execution timed out.")
               else Raise e
  end.

Section Environment.

(** The thread that calls [timeout_handler]. *)
Variable caller : tid.

(** What the calling thread does to its own context between the
    dispatch and the moment the worker thread starts the task. *)
Variable mutate : gmap string value -> gmap string value.

(** The worker thread of a new pool differs from every existing
    thread. *)
Definition new_thread (s : state) : tid :=
  fresh ({[caller]} ∪ dom (context s)).

(** [ThreadPoolExecutor()] *)
Definition ThreadPoolExecutor (s : state) : Executor * state :=
  let ex := {| max_workers := None; _shutdown := false; submitted := 0 |} in
  (ex, emit EvPool (set_pool (Some ex) s)).

(** [executor.submit(run_with_ctx, *a, _ctx_dict=snapshot, **kw)] once
    the keywords are bound: refused by a pool that was shut down;
    otherwise a worker thread of the pool takes the task, and the
    future stands for how the task runs. *)
Definition submit (executor : Executor) (fn : callable) (a : args)
    (snapshot kw : gmap string value) (s : state) : result run * state :=
  if _shutdown executor then
    (Raise (Exn RuntimeError "cannot schedule new futures after shutdown"), s)
  else
    let w := new_thread s in
    let s1 :=
      set_pool
        (Some {| max_workers := max_workers executor;
                 _shutdown := _shutdown executor;
                 submitted := S (submitted executor) |})
        (emit (EvSubmit w) s) in
    let s2 := set_context (<[caller := mutate (ctx_of caller s1)]> (context s1)) s1 in
    let '(fut, s3) := run_with_ctx fn w a snapshot kw s2 in
    (Return fut, s3).

(** The body of [timeout_handler], once its arguments are bound. *)
Definition timeout_handler_body (fn : callable) (a : args) (timeout : option Z)
    (kw : gmap string value) (s : state) : outcome value * state :=
  match timeout with
  | None =>
      match call fn caller a kw s with
      | (Finishes _ o, s') => (Done o, s')
      | (Hangs, s') => (NoReturn, s')
      end
  | Some t =>
      let '(executor, s1) := ThreadPoolExecutor s in
      let '(snapshot, s2) := to_dict caller s1 in
      match keyword_with "submit" "_ctx_dict" kw with
      | Raise e => (Done (Raise e), s2)
      | Return _ =>
          match submit executor fn a snapshot kw s2 with
          | (Raise e, s3) => (Done (Raise e), s3)
          | (Return fut, s3) => (Done (waited fut t), s3)
          end
      end
  end.

(** timeout_handler: the call [timeout_handler(fn, *a, timeout=timeout,
    **kw)], from the binding of its arguments on. *)
Definition timeout_handler (fn : callable) (a : args) (timeout : option Z)
    (kw : gmap string value) (s : state) : outcome value * state :=
  match bind_arguments kw with
  | Raise e => (Done (Raise e), s)
  | Return _ => timeout_handler_body fn a timeout kw s
  end.

End Environment.

(** *** Inputs and statements used below *)

(** No context anywhere, no call in progress. *)
Definition idle : state := {| context := ∅; pool := None; trace := [] |}.

(** The calling thread [0] runs under a context with one entry. *)
Definition in_flow : state :=
  {| context := {[ 0%nat := {[ "flow_name" := VStr "etl" ]} ]};
     pool := None; trace := [] |}.

(** The calling thread overwrites that entry. *)
Definition rename_flow (c : gmap string value) : gmap string value :=
  <["flow_name" := VStr "other"]> c.

(** A callable that returns the [flow_name] of the context it runs
    under, after one second. *)
Definition read_flow : callable :=
  fun _ _ ctx => Finishes 1 (Return (default VNone (ctx !! "flow_name"))).

(** A callable that returns 7 after one second. *)
Definition quick_seven : callable := fun _ _ _ => Finishes 1 (Return (VInt 7)).

(** A callable that raises [concurrent.futures.TimeoutError] at once. *)
Definition raises_future_timeout : callable :=
  fun _ _ _ => Finishes 0 (Raise (Exn FutureTimeout "")).

(** The sentence "if the result arrives in time it is returned, or its
    failure propagated, unchanged, and the worker resource is released"
    at one call. *)
Definition in_time_claim (caller : tid) (mutate : gmap string value -> gmap string value)
    (fn : callable) (a : args) (t : Z) (kw : gmap string value) (s : state) : Prop :=
  kw !! "_ctx_dict" = None ->
  forall secs o,
    fn a kw (ctx_of caller s) = Finishes secs o ->
    finished_in (Finishes secs o) t = true ->
    let out := timeout_handler caller mutate fn a (Some t) kw s in
    fst out = Done o /\ released (snd out) = true.

(** *** More inputs and statements *)

(** A callable that never comes back. *)
Definition never_returns : callable := fun _ _ _ => Hangs.

(** A callable that takes an hour to return 7. *)
Definition slow_seven : callable := fun _ _ _ => Finishes 3600 (Return (VInt 7)).

(** The error [timeout_handler] raises for an elapsed deadline, and the
    error of a wait whose timeout the lock refuses. *)
Definition timed_out : exn := Exn TimeoutError "Execution timed out.".
Definition too_large : exn := Exn OverflowError "timeout value is too large".

(** A callable that returns what it is given under the keyword [fn]. *)
Definition read_fn : callable :=
  fun _ kw _ => Finishes 0 (Return (default VNone (kw !! "fn"))).

(** The sentence "with [timeout=None] the call is the direct call
    [fn( *args, **kwargs)]: same result, same exception, no dispatch" at
    one call. *)
Definition no_timeout_claim (caller : tid)
    (mutate : gmap string value -> gmap string value)
    (fn : callable) (a : args) (kw : gmap string value) (s : state) : Prop :=
  let out := timeout_handler caller mutate fn a None kw s in
  fst out = match fn a kw (ctx_of caller s) with
            | Finishes _ o => Done o
            | Hangs => NoReturn
            end /\
  filter is_pool (trace (snd out)) = filter is_pool (trace s) /\
  filter is_submit (trace (snd out)) = filter is_submit (trace s).

(** An event that is no call of [fn], or is the call [fn( *a, **kw)] on a
    thread other than [caller]. *)
Definition off_caller (caller : tid) (a : args) (kw : gmap string value)
    (ev : event) : Prop :=
  match ev with
  | EvCall t a' kw' _ => t <> caller /\ a' = a /\ kw' = kw
  | _ => True
  end.

End Th.

(** ** Facts about Heartbeat and run_with_heartbeat *)

Module HbFacts.
Import Hb.

Lemma py_min_Z a b : Py.min a b = Z.min a b.
Proof. unfold Py.min. destruct (Z.ltb_spec b a); lia. Qed.

Lemma rate_init itv f : rate (Heartbeat__init__ itv f) = tickRate itv.
Proof. apply py_min_Z. Qed.

Lemma tickRate_positive itv : 1 <= itv -> tickRate itv = 1.
Proof. unfold tickRate. lia. Qed.

(** *** The loop *)

Section Loop.
Variables (itv : Z) (f : callback).
Hypothesis positive : 1 <= itv.

Let h := Heartbeat__init__ itv f.

(** With a positive interval the body of the loop meets none of its
    error cases: it calls back, steps the counter and sleeps a
    second. *)
Lemma looper_body_positive iters n :
  looper_body h iters n =
  match f n with
  | Return _ => ([Beat n; Sleep 1], Return ((iters + 1) mod itv, S n))
  | Raise e => ([Beat n], Raise e)
  end.
Proof.
  unfold looper_body, py_mod, sleep, round.
  replace (rate h) with 1 by (subst h; rewrite rate_init, tickRate_positive; lia).
  change (interval h) with itv. change (function h) with f.
  rewrite Z.mod_1_r. simpl (1 =? 0). simpl (0 =? 0). cbv iota.
  destruct (f n); simpl; [|reflexivity].
  destruct (Z.eqb_spec itv 0); [lia|]. reflexivity.
Qed.

Lemma looper_from_spec flags : forall iters n,
  looper_from h flags iters n = spec_loop itv f (map negb flags) iters n.
Proof.
  induction flags as [|b flags IH]; intros iters n; [reflexivity|].
  destruct b; [reflexivity|].
  cbn [looper_from map negb spec_loop].
  rewrite looper_body_positive, tickRate_positive by lia.
  rewrite Z.mod_1_r. simpl (0 =? 0).
  destruct (f n) as [v|e]; [|reflexivity].
  rewrite IH. destruct (spec_loop _ _ _ _ _) as [rest fin]. reflexivity.
Qed.

(** A callback that never fails is invoked on every tick until the
    flag is seen. *)
Lemma looper_beats_every_tick k : forall iters n,
  (forall m, exists v, f m = Return v) ->
  looper_from h (repeat false k ++ [true]) iters n =
  (flat_map (fun j => [Beat j; Sleep 1]) (seq n k), Exited).
Proof.
  induction k as [|k IH]; intros iters n Hf; [reflexivity|].
  cbn [repeat app looper_from]. rewrite looper_body_positive.
  destruct (Hf n) as [v ->]. rewrite IH by exact Hf. reflexivity.
Qed.

(** The counter after [k] ticks is the number of ticks modulo the
    interval. *)
Lemma looper_counter k : forall iters n,
  (forall m, exists v, f m = Return v) ->
  0 <= iters < itv ->
  snd (looper_from h (repeat false k) iters n)
  = Running ((iters + Z.of_nat k) mod itv).
Proof.
  induction k as [|k IH]; intros iters n Hf Hi.
  - cbn. rewrite Z.add_0_r, Z.mod_small by lia. reflexivity.
  - cbn [repeat looper_from]. rewrite looper_body_positive.
    destruct (Hf n) as [v ->].
    specialize (IH ((iters + 1) mod itv) (S n) Hf).
    destruct (looper_from h (repeat false k) ((iters + 1) mod itv) (S n)) as [rest fin].
    cbn [snd] in *. rewrite IH by (apply Z.mod_pos_bound; lia).
    rewrite Zplus_mod_idemp_l. f_equal. f_equal. lia.
Qed.
End Loop.

(** The loop reads only [interval], [rate] and [function] of its
    Heartbeat. *)
Lemma looper_from_attrs h h' flags :
  interval h' = interval h -> rate h' = rate h -> function h' = function h ->
  forall iters n, looper_from h' flags iters n = looper_from h flags iters n.
Proof.
  intros Hi Hr Hf. induction flags as [|b flags IH]; intros iters n; [reflexivity|].
  destruct b; [reflexivity|]. cbn [looper_from].
  unfold looper_body. rewrite Hi, Hr, Hf.
  destruct (py_mod iters (rate h)) as [m|e]; [|reflexivity].
  destruct (round m =? 0).
  - destruct (function h n); [|reflexivity].
    destruct (py_mod (iters + 1) (interval h)); [|reflexivity].
    destruct (sleep (rate h)); [|reflexivity]. rewrite IH. reflexivity.
  - destruct (py_mod (iters + 1) (interval h)); [|reflexivity].
    destruct (sleep (rate h)); [|reflexivity]. rewrite IH. reflexivity.
Qed.

(** *** start and cancel *)

Lemma start_eq flags s : start flags s = (Return tt, started flags s).
Proof.
  unfold start, ThreadPoolExecutor, submit_looper, bind, emit, update_timer,
    get_executor, ret, started. cbn.
  unfold looper at 1.
  rewrite (looper_from_attrs (timer s)) by reflexivity.
  fold (looper (timer s) flags (calls s)).
  destruct (looper (timer s) flags (calls s)) as [evs fin]. cbn.
  rewrite <- !app_assoc. reflexivity.
Qed.

Lemma cancel_eq s : cancel s = (Return tt, cancelled s).
Proof.
  unfold cancel, shutdown, hasattr_executor, get_executor, bind, emit,
    update_timer, ret, cancelled. cbn.
  destruct (executor (timer s)) as [ex|] eqn:E; cbn; rewrite ?E; cbn; [|reflexivity].
  rewrite <- !app_assoc. reflexivity.
Qed.

Lemma run_calls_total flags cs : forall s, fst (run_calls flags cs s) = Return tt.
Proof.
  induction cs as [|c cs IH]; intros s; [reflexivity|].
  destruct c; cbn [run_calls]; unfold bind.
  - rewrite start_eq. apply IH.
  - rewrite cancel_eq. apply IH.
Qed.

Lemma cancel_unstarted_repeat flags n : forall s,
  executor (timer s) = None ->
  let out := run_calls flags (repeat CallCancel n) s in
  fst out = Return tt /\ trace (snd out) = trace s ++ repeat EvCancel n /\
  executor (timer (snd out)) = None /\ background (snd out) = background s.
Proof.
  induction n as [|n IH]; intros s Hs; cbn.
  - rewrite app_nil_r. auto.
  - unfold bind. rewrite cancel_eq.
    assert (Hc : cancelled s =
                 {| timer := set_exit true (timer s); trace := trace s ++ [EvCancel];
                    background := background s; calls := calls s |})
      by (unfold cancelled; rewrite Hs; reflexivity).
    rewrite Hc.
    destruct (IH {| timer := set_exit true (timer s); trace := trace s ++ [EvCancel];
                    background := background s; calls := calls s |} Hs)
      as (H1 & H2 & H3 & H4).
    cbn in *. rewrite H1, H2, H3, H4. rewrite <- app_assoc. auto.
Qed.

Lemma no_shutdown_in_cancels n : filter is_shutdown (repeat EvCancel n) = [].
Proof. induction n; cbn; auto. Qed.

(** *** inner *)

Lemma inner_try_eq flags rm self a kw s :
  inner_try flags rm self a kw s =
  match _heartbeat self (calls s) with
  | Return v =>
      (rm self a kw,
       recorded (EvRun a kw) (if truthy v then started flags (probed s) else probed s))
  | Raise e =>
      if is_Exception e
      then (rm self a kw, recorded (EvRun a kw) (recorded (EvLog failed_to_start) (probed s)))
      else (Raise e, probed s)
  end.
Proof.
  unfold inner_try, try_except_Exception, bind at 1 2, call_heartbeat.
  fold (probed s).
  destruct (_heartbeat self (calls s)) as [v|e].
  - destruct (truthy v); [rewrite start_eq|]; reflexivity.
  - destruct (is_Exception e); reflexivity.
Qed.

Lemma inner_eq flags hi rm self a kw :
  inner flags hi rm self a kw =
  let body := inner_try flags rm self a kw
                (init_state (Heartbeat__init__ hi (_heartbeat self))) in
  (fst body, cancelled (snd body)).
Proof.
  unfold inner, try_finally.
  destruct (inner_try _ _ _ _ _ _) as [r s]. rewrite cancel_eq. reflexivity.
Qed.

(** A probe that answers [True] does start a loop, which calls back. *)
Example probe_true_starts_loop :
  let out := inner [false; false; true] 30 returns_seven beating [] ∅ in
  fst out = Return (VInt 7) /\
  trace (snd out) = [EvProbe 0; EvPool 2; EvSubmit; EvRun [] ∅; EvCancel; EvShutdown] /\
  background (snd out) = [Beat 1; Sleep 1; Beat 2; Sleep 1] /\
  fut (timer (snd out)) = Some Exited.
Proof. vm_compute. repeat split. Qed.

(** A probe that is interrupted: nothing is logged, the method does not
    run, [cancel] still does. *)
Example probe_interrupt_outcome :
  let out := inner [true] 30 returns_seven interrupted [] ∅ in
  fst out = Raise (Exn KeyboardInterrupt "") /\
  trace (snd out) = [EvProbe 0; EvCancel].
Proof. vm_compute. auto. Qed.

(** *** The claims *)

(** C4.  For a positive integer interval the tick rate of a Heartbeat,
    before and after [start()], is [min(interval, 1)], and the loop that
    [start()] launches is the loop of the specification: from counter 0,
    on each tick it invokes the callback when the counter is 0 modulo
    the tick rate, steps the counter modulo [interval], sleeps the tick
    rate, and goes on until it reads the flag that ends it.  What the
    loop thread does and how it ends are those of [spec_loop], for every
    sequence of flag values it may read and every callback (a callback
    that raises ends the loop).  With a callback that does not raise,
    a loop that reads the flag unset [k] times and then set calls back
    and sleeps one second [k] times and leaves; after [k] ticks its
    counter is [k mod interval]. *)
Theorem heartbeat_loop_follows_spec itv f flags :
  1 <= itv ->
  let h := Heartbeat__init__ itv f in
  let out := start flags (init_state h) in
  rate h = Z.min itv 1 /\
  (forall n, looper h flags n = spec_loop itv f (map negb flags) 0 n) /\
  fst out = Return tt /\
  rate (timer (snd out)) = Z.min itv 1 /\
  interval (timer (snd out)) = itv /\
  background (snd out) = fst (spec_loop itv f (map negb flags) 0 0) /\
  fut (timer (snd out)) = Some (snd (spec_loop itv f (map negb flags) 0 0)) /\
  ((forall m, exists v, f m = Return v) ->
   forall k n,
     looper h (repeat false k ++ [true]) n
     = (flat_map (fun j => [Beat j; Sleep (Z.min itv 1)]) (seq n k), Exited) /\
     snd (looper h (repeat false k) n) = Running (Z.of_nat k mod itv)).
Proof.
  intros Hpos. cbv zeta. rewrite start_eq.
  split; [apply rate_init|]. split; [intros n; apply looper_from_spec; exact Hpos|].
  unfold started. cbn.
  unfold looper. rewrite looper_from_spec by exact Hpos.
  do 4 (split; [first [reflexivity | apply py_min_Z]|]).
  split; [reflexivity|].
  intros Hf k n. replace (Z.min itv 1) with 1 by lia. split.
  - apply looper_beats_every_tick; assumption.
  - rewrite looper_counter by (assumption || lia). reflexivity.
Qed.

Lemma heartbeat_loop_follows_spec_witness :
  1 <= 3 /\
  looper (Heartbeat__init__ 3 alive) [false; false; false; false; true] 0
    = ([Beat 0; Sleep 1; Beat 1; Sleep 1; Beat 2; Sleep 1; Beat 3; Sleep 1], Exited) /\
  background (snd (start [false; false; true] (init_state (Heartbeat__init__ 3 alive))))
    = [Beat 0; Sleep 1; Beat 1; Sleep 1] /\
  snd (looper (Heartbeat__init__ 3 alive) (repeat false 4) 0) = Running 1.
Proof.
  assert (H : 1 <= 3) by lia.
  destruct (heartbeat_loop_follows_spec 3 alive [false; false; false; false; true] H)
    as (_ & Hl & _).
  destruct (heartbeat_loop_follows_spec 3 alive [false; false; true] H)
    as (_ & _ & _ & _ & _ & Hb & _ & Hk).
  split; [exact H|]. split; [|split].
  - rewrite Hl. reflexivity.
  - rewrite Hb. reflexivity.
  - apply (Hk (fun m => ex_intro _ (VBool true) eq_refl) 4%nat 0%nat).
Defined.

(** C8.  [cancel()] returns normally from every state of a Heartbeat, so
    it can be called any number of times, before or after [start()].  On
    a Heartbeat that was never started, any number of calls of
    [cancel()] return normally without one [executor.shutdown()], the
    only call of [cancel()] that waits: the calling thread does nothing
    but enter [cancel()], and the object still has no executor.  Every
    sequence of [start()] and [cancel()] calls runs to its end without
    an exception. *)
Theorem cancel_is_safe :
  (forall s, fst (cancel s) = Return tt) /\
  (forall flags itv f n,
      let out := run_calls flags (repeat CallCancel n)
                   (init_state (Heartbeat__init__ itv f)) in
      fst out = Return tt /\
      trace (snd out) = repeat EvCancel n /\
      filter is_shutdown (trace (snd out)) = [] /\
      executor (timer (snd out)) = None) /\
  (forall flags cs s, fst (run_calls flags cs s) = Return tt).
Proof.
  split; [|split].
  - intros s. rewrite cancel_eq. reflexivity.
  - intros flags itv f n.
    destruct (cancel_unstarted_repeat flags n (init_state (Heartbeat__init__ itv f)))
      as (H1 & H2 & H3 & _); [reflexivity|].
    cbn in H2. cbv zeta. rewrite H2. repeat split; auto.
    apply no_shutdown_in_cancels.
  - intros. apply run_calls_total.
Qed.

(** C1.  In every call of [inner], whatever the probe and the wrapped
    method do, [cancel()] is entered exactly once, on the Heartbeat that
    [inner] built: not during the [try] block, and once after it, from
    the state the block left, whether the block returned or raised; the
    outcome of [inner] is the outcome of the block, and when the wrapped
    method ran it ran before [cancel()] and its outcome, a value or an
    exception, is the outcome of [inner].  When no loop was started
    (nothing was submitted), that [cancel()] has no effect outside the
    Heartbeat object: it writes the flag [_exit], shuts nothing down and
    waits for nothing, and the object has no executor and no future. *)
Theorem inner_cancels_exactly_once flags hi rm self a kw :
  let body := inner_try flags rm self a kw
                (init_state (Heartbeat__init__ hi (_heartbeat self))) in
  let out := inner flags hi rm self a kw in
  fst out = fst body /\
  snd out = snd (cancel (snd body)) /\
  filter is_cancel (trace (snd body)) = [] /\
  filter is_cancel (trace (snd out)) = [EvCancel] /\
  (exists tail, trace (snd out) = trace (snd body) ++ EvCancel :: tail /\
                filter is_run tail = []) /\
  (filter is_run (trace (snd body)) = [EvRun a kw] -> fst out = rm self a kw) /\
  (filter is_submit (trace (snd body)) = [] ->
     snd out = {| timer := set_exit true (timer (snd body));
                  trace := trace (snd body) ++ [EvCancel];
                  background := background (snd body);
                  calls := calls (snd body) |} /\
     executor (timer (snd out)) = None /\
     fut (timer (snd out)) = None /\
     background (snd out) = [] /\
     filter is_shutdown (trace (snd out)) = []).
Proof.
  cbv zeta. rewrite inner_eq, cancel_eq, inner_try_eq. cbv zeta.
  change (calls (init_state _)) with 0%nat.
  destruct (_heartbeat self 0%nat) as [v|e];
    [destruct (truthy v)|destruct (is_Exception e)];
    cbn;
    (repeat split; try reflexivity; try discriminate;
     try (eexists; split; reflexivity)).
Qed.

Lemma inner_cancels_exactly_once_witness :
  filter is_run (trace (snd (inner_try [true] returns_seven quiet [] ∅
                   (init_state (Heartbeat__init__ 30 (_heartbeat quiet))))))
    = [EvRun [] ∅] /\
  filter is_submit (trace (snd (inner_try [true] returns_seven quiet [] ∅
                      (init_state (Heartbeat__init__ 30 (_heartbeat quiet))))))
    = [] /\
  fst (inner [true] 30 returns_seven quiet [] ∅) = Return (VInt 7) /\
  filter is_shutdown (trace (snd (inner [true] 30 returns_seven quiet [] ∅))) = [].
Proof.
  destruct (inner_cancels_exactly_once [true] 30 returns_seven quiet [] ∅)
    as (_ & _ & _ & _ & _ & Hrun & Hnoop).
  split; [reflexivity|]. split; [reflexivity|]. split.
  - apply Hrun. reflexivity.
  - apply Hnoop. reflexivity.
Defined.

(** C10.  When the probe returns [False], [inner] builds the Heartbeat
    and never calls [start()]: no executor is made, nothing is
    submitted, no loop thread does anything, and the only invocation of
    the callback is the probe itself.  The wrapped method is still
    called and its outcome is the outcome of [inner].  The [cancel()] of
    the [finally] block finds no executor: it writes [_exit] on the
    object [inner] built and does nothing else. *)
Theorem probe_false_never_starts flags hi rm self a kw :
  _heartbeat self 0%nat = Return (VBool false) ->
  let out := inner flags hi rm self a kw in
  fst out = rm self a kw /\
  trace (snd out) = [EvProbe 0; EvRun a kw; EvCancel] /\
  timer (snd out) = set_exit true (Heartbeat__init__ hi (_heartbeat self)) /\
  executor (timer (snd out)) = None /\
  fut (timer (snd out)) = None /\
  background (snd out) = [] /\
  calls (snd out) = 1%nat.
Proof.
  intros Hp. cbv zeta. rewrite inner_eq, inner_try_eq. cbv zeta.
  change (calls (init_state _)) with 0%nat. rewrite Hp. cbn.
  repeat split; reflexivity.
Qed.

Lemma probe_false_never_starts_witness :
  _heartbeat quiet 0%nat = Return (VBool false) /\
  fst (inner [false; true] 30 returns_seven quiet [VInt 1] ∅) = Return (VInt 7) /\
  trace (snd (inner [false; true] 30 returns_seven quiet [VInt 1] ∅))
    = [EvProbe 0; EvRun [VInt 1] ∅; EvCancel].
Proof.
  split; [reflexivity|].
  destruct (probe_false_never_starts [false; true] 30 returns_seven quiet [VInt 1] ∅ eq_refl)
    as (Hr & Ht & _).
  split; [exact Hr | exact Ht].
Defined.

(** C5, as the code has it.  When the probe raises an exception that is
    an instance of [Exception], [inner] logs the failure once with
    [self.logger.exception], starts no loop (no executor, nothing
    submitted, no loop event), and still calls the wrapped method, whose
    outcome, a value or an exception, is the outcome of [inner]. *)
Theorem probe_exception_is_logged flags hi rm self a kw e :
  _heartbeat self 0%nat = Raise e ->
  is_Exception e = true ->
  let out := inner flags hi rm self a kw in
  fst out = rm self a kw /\
  trace (snd out) = [EvProbe 0; EvLog failed_to_start; EvRun a kw; EvCancel] /\
  executor (timer (snd out)) = None /\
  fut (timer (snd out)) = None /\
  background (snd out) = [] /\
  calls (snd out) = 1%nat.
Proof.
  intros Hp He. cbv zeta. rewrite inner_eq, inner_try_eq. cbv zeta.
  change (calls (init_state _)) with 0%nat. rewrite Hp, He. cbn.
  repeat split; reflexivity.
Qed.

Lemma probe_exception_is_logged_witness :
  _heartbeat broken 0%nat = Raise (Exn Exception "no backend") /\
  is_Exception (Exn Exception "no backend") = true /\
  fst (inner [false; true] 30 returns_seven broken [] ∅) = Return (VInt 7) /\
  trace (snd (inner [false; true] 30 returns_seven broken [] ∅))
    = [EvProbe 0; EvLog failed_to_start; EvRun [] ∅; EvCancel].
Proof.
  split; [reflexivity|]. split; [reflexivity|].
  destruct (probe_exception_is_logged [false; true] 30 returns_seven broken [] ∅
              (Exn Exception "no backend") eq_refl eq_refl) as (Hr & Ht & _).
  split; [exact Hr | exact Ht].
Defined.

(** C5 as it is stated fails when the probe is interrupted:
    [KeyboardInterrupt] is no instance of [Exception], so it passes the
    [except Exception] clause, nothing is logged and the wrapped method
    is not called. *)
Lemma probe_interrupt_skips_method :
  ~ probe_raises_claim [true] 30 returns_seven interrupted [] ∅.
Proof.
  intros H. destruct H as (H & _); [eexists; reflexivity|].
  vm_compute in H. discriminate H.
Qed.

End HbFacts.

(** ** Facts about timeout_handler *)

Module ThFacts.
Import Th.

Lemma binds_bind_arguments kw : binds kw -> bind_arguments kw = Return tt.
Proof. intros [Ht Hf]. unfold bind_arguments. rewrite Ht, Hf. reflexivity. Qed.

Lemma bind_arguments_TypeError kw e :
  bind_arguments kw = Raise e -> class_of e = TypeError /\ ~ binds kw.
Proof.
  unfold bind_arguments, binds.
  destruct (kw !! "timeout") eqn:Ht; [|destruct (kw !! "fn") eqn:Hf].
  - intros [= <-]. split; [reflexivity|]. intros [H _]. discriminate H.
  - intros [= <-]. split; [reflexivity|]. intros [_ H]. discriminate H.
  - discriminate.
Qed.

(** What the [except FutureTimeout] clause makes of the outcome of a
    task that [fut.result] finds finished. *)
Lemma waited_finished secs o t :
  finished_in (Finishes secs o) t = true ->
  waited (Finishes secs o) t =
  match o with
  | Return v => Return v
  | Raise e => if is_FutureTimeout e then Raise timed_out else Raise e
  end.
Proof.
  unfold waited, Future_result, Condition_wait, finished_in, TIMEOUT_MAX.
  destruct (Z.leb_spec secs 0); [reflexivity|].
  destruct (Z.leb_spec t 9223372036), (Z.ltb_spec 9223372036 t),
    (Z.leb_spec secs t); cbn; intros; try discriminate; try lia; reflexivity.
Qed.

(** What it makes of a task that [fut.result] does not find finished:
    the timeout error, or the [OverflowError] of a wait that the lock
    refuses. *)
Lemma waited_unfinished r t :
  finished_in r t = false ->
  waited r t = Raise (if TIMEOUT_MAX <? t then too_large else timed_out).
Proof.
  unfold waited, Future_result, Condition_wait, finished_in, TIMEOUT_MAX.
  destruct r as [secs o|].
  - destruct (Z.leb_spec secs 0); [discriminate|].
    destruct (Z.leb_spec t 9223372036), (Z.ltb_spec 9223372036 t),
      (Z.leb_spec secs t); cbn; intros; try discriminate; try lia; reflexivity.
  - intros _. destruct (Z.ltb_spec 9223372036 t); reflexivity.
Qed.

Section Calls.
Variables (caller : tid) (mutate : gmap string value -> gmap string value).

Lemma new_thread_not_caller s : new_thread caller s ≠ caller.
Proof.
  unfold new_thread. intros E.
  pose proof (is_fresh ({[caller]} ∪ dom (context s))) as H.
  rewrite E in H at 1. set_solver.
Qed.

Lemma new_thread_no_context s : context s !! new_thread caller s = None.
Proof.
  unfold new_thread. apply not_elem_of_dom.
  pose proof (is_fresh ({[caller]} ∪ dom (context s))) as H. set_solver.
Qed.

(** A call whose keywords do not bind raises at once and does nothing. *)
Lemma unbound_call fn a timeout kw s e :
  bind_arguments kw = Raise e ->
  timeout_handler caller mutate fn a timeout kw s = (Done (Raise e), s).
Proof. intros H. unfold timeout_handler. rewrite H. reflexivity. Qed.

Lemma bound_call fn a timeout kw s :
  binds kw ->
  timeout_handler caller mutate fn a timeout kw s
  = timeout_handler_body caller mutate fn a timeout kw s.
Proof.
  intros H. unfold timeout_handler. rewrite binds_bind_arguments by exact H.
  reflexivity.
Qed.

(** A call with a timeout whose keywords bind and do not hold
    [_ctx_dict]: its outcome and the state it leaves. *)
Lemma timed_call fn a t kw s :
  binds kw ->
  kw !! "_ctx_dict" = None ->
  let snap := ctx_of caller s in
  let w := new_thread caller s in
  let r := fn a kw snap in
  timeout_handler caller mutate fn a (Some t) kw s =
  (Done (waited r t),
   {| context :=
        match r with
        | Finishes _ _ => <[caller := mutate snap]> (context s)
        | Hangs => <[w := snap]> (<[caller := mutate snap]> (context s))
        end;
      pool := Some {| max_workers := None; _shutdown := false; submitted := 1 |};
      trace := trace s ++ [EvPool; EvToDict caller; EvSubmit w; EvRestore w snap;
                           EvCall w a kw snap] ++
               match r with Finishes _ _ => [EvRevert w] | Hangs => [] end |}).
Proof.
  intros Hb Hkw. rewrite bound_call by exact Hb.
  pose proof (new_thread_not_caller s) as Hw.
  pose proof (new_thread_no_context s) as Hn.
  destruct s as [ctx p tr].
  cbv beta iota zeta delta
    [timeout_handler_body to_dict keyword_with submit run_with_ctx with_context call
     ThreadPoolExecutor emit set_pool set_context ctx_of new_thread
     context pool trace max_workers _shutdown submitted] in *.
  rewrite Hkw.
  set (w := fresh ({[caller]} ∪ dom ctx)) in *.
  set (snap := default ∅ (ctx !! caller)).
  rewrite lookup_insert_eq, (lookup_insert_ne _ caller w) by congruence.
  rewrite Hn. cbn [from_option id].
  destruct (fn a kw snap) as [secs o|] eqn:Hr; rewrite ?Hr.
  - rewrite delete_insert_eq.
    rewrite delete_id by (rewrite lookup_insert_ne by congruence; exact Hn).
    rewrite <- !app_assoc. cbn [app].
    reflexivity.
  - rewrite <- !app_assoc. reflexivity.
Qed.

(** A call with a timeout whose keywords bind and hold [_ctx_dict]. *)
Lemma reserved_call fn a t kw s :
  binds kw ->
  is_Some (kw !! "_ctx_dict") ->
  timeout_handler caller mutate fn a (Some t) kw s =
  (Done (Raise duplicate_ctx_dict),
   {| context := context s;
      pool := Some {| max_workers := None; _shutdown := false; submitted := 0 |};
      trace := trace s ++ [EvPool; EvToDict caller] |}).
Proof.
  intros Hb [v Hv]. rewrite bound_call by exact Hb.
  unfold timeout_handler_body, to_dict, keyword_with. rewrite Hv.
  destruct s as [ctx p tr].
  cbv beta iota zeta delta
    [ThreadPoolExecutor emit set_pool context pool trace].
  rewrite <- app_assoc. reflexivity.
Qed.

(** When the wait, of a length the lock accepts, ends before the task
    has finished, the call fails with the timeout error. *)
Lemma deadline_elapsed fn a t kw s :
  binds kw ->
  kw !! "_ctx_dict" = None ->
  t <= TIMEOUT_MAX ->
  finished_in (fn a kw (ctx_of caller s)) t = false ->
  fst (timeout_handler caller mutate fn a (Some t) kw s) = Done (Raise timed_out).
Proof.
  intros Hb Hkw Ht Hf. rewrite timed_call by assumption. cbv zeta. cbn [fst].
  rewrite waited_unfinished by exact Hf.
  destruct (Z.ltb_spec TIMEOUT_MAX t); [lia|reflexivity].
Qed.

(** A task that fails in time with [concurrent.futures.TimeoutError]
    has its failure replaced by the timeout error. *)
Lemma future_timeout_rewritten fn a t kw s secs e :
  binds kw ->
  kw !! "_ctx_dict" = None ->
  fn a kw (ctx_of caller s) = Finishes secs (Raise e) ->
  finished_in (Finishes secs (Raise e)) t = true ->
  is_FutureTimeout e = true ->
  fst (timeout_handler caller mutate fn a (Some t) kw s) = Done (Raise timed_out).
Proof.
  intros Hb Hkw Hr Hf He. rewrite timed_call by assumption. cbv zeta. cbn [fst].
  rewrite Hr, waited_finished by exact Hf. rewrite He. reflexivity.
Qed.

(** *** The claims *)

(** C3, as the code has it.  With [timeout=None] and keyword arguments
    that do not use the names [fn] and [timeout] of the signature,
    [timeout_handler] is the direct call [fn( *args, **kwargs)] on the
    calling thread, under the context active there: it comes back with
    the value the call returns or the exception the call raises, and
    does not come back if the call does not.  The call of [fn] is its
    only event: no executor is made, nothing is submitted, no context is
    touched. *)
Theorem no_timeout_is_direct_call fn a kw s :
  binds kw ->
  let out := timeout_handler caller mutate fn a None kw s in
  fst out = match fn a kw (ctx_of caller s) with
            | Finishes _ o => Done o
            | Hangs => NoReturn
            end /\
  trace (snd out) = trace s ++ [EvCall caller a kw (ctx_of caller s)] /\
  filter is_pool (trace (snd out)) = filter is_pool (trace s) /\
  filter is_submit (trace (snd out)) = filter is_submit (trace s) /\
  pool (snd out) = pool s /\
  context (snd out) = context s.
Proof.
  intros Hb. cbv zeta. rewrite bound_call by exact Hb.
  unfold timeout_handler_body, call.
  destruct (fn a kw (ctx_of caller s)) as [secs o|]; cbn;
    rewrite !filter_app, !app_nil_r; repeat split; reflexivity.
Qed.

(** C9.  With a timeout and keyword arguments that hold the key
    [_ctx_dict] (and bind to the signature), the call of
    [executor.submit] raises a [TypeError] for the keyword given twice,
    and this is the outcome of [timeout_handler] on the calling thread:
    after the executor is made and the context read, nothing is
    submitted to a worker and [fn] is never called, so the value of the
    caller never reaches it. *)
Theorem ctx_dict_keyword_is_reserved fn a t kw s :
  binds kw ->
  is_Some (kw !! "_ctx_dict") ->
  let out := timeout_handler caller mutate fn a (Some t) kw s in
  fst out = Done (Raise duplicate_ctx_dict) /\
  class_of duplicate_ctx_dict = TypeError /\
  trace (snd out) = trace s ++ [EvPool; EvToDict caller] /\
  filter is_submit (trace (snd out)) = filter is_submit (trace s) /\
  filter is_call (trace (snd out)) = filter is_call (trace s) /\
  context (snd out) = context s.
Proof.
  intros Hb Hkw. cbv zeta. rewrite reserved_call by assumption. cbn.
  rewrite !filter_app. cbn. rewrite !app_nil_r. repeat split; reflexivity.
Qed.

(** C7.  With a timeout (and keyword arguments that bind to the
    signature and leave [_ctx_dict] free, so that a task is dispatched),
    the context is read on the calling thread before the task is
    submitted; the task runs on a worker thread other than the caller,
    and the context active there when [fn] is entered is the content the
    context of the caller had when [timeout_handler] was called,
    whatever the caller does to its own context after the dispatch
    ([mutate]).  When the task is over the context of the worker thread
    is what it was before; while a task that never ends runs, it is the
    snapshot. *)
Theorem task_runs_under_call_time_snapshot fn a t kw s :
  binds kw ->
  kw !! "_ctx_dict" = None ->
  let out := timeout_handler caller mutate fn a (Some t) kw s in
  let snap := ctx_of caller s in
  let w := new_thread caller s in
  w ≠ caller /\
  trace (snd out) =
    trace s ++ [EvPool; EvToDict caller; EvSubmit w; EvRestore w snap;
                EvCall w a kw snap] ++
    match fn a kw snap with Finishes _ _ => [EvRevert w] | Hangs => [] end /\
  ctx_of caller (snd out) = mutate snap /\
  match fn a kw snap with
  | Finishes _ _ => ctx_of w (snd out) = ctx_of w s
  | Hangs => ctx_of w (snd out) = snap
  end.
Proof.
  intros Hb Hkw. cbv zeta. rewrite timed_call by assumption. cbv zeta.
  cbn [snd fst trace].
  pose proof (new_thread_not_caller s) as Hw.
  pose proof (new_thread_no_context s) as Hn.
  split; [exact Hw|]. split; [reflexivity|].
  set (w := new_thread caller s) in *. set (snap := ctx_of caller s).
  destruct (fn a kw snap); unfold ctx_of; cbn [context].
  - rewrite lookup_insert_eq, lookup_insert_ne by congruence. auto.
  - rewrite (lookup_insert_ne _ w caller) by exact Hw.
    rewrite !lookup_insert_eq. auto.
Qed.

(** C6, as the code has it.  With a timeout, when [fut.result] finds the
    dispatched task finished (at the call, or at the end of a wait of at
    most [threading.TIMEOUT_MAX] seconds), its value is returned
    unchanged, and so is its exception when that is no
    [concurrent.futures.TimeoutError]; [timeout_handler] does not shut
    its executor down: when it comes back the executor has one task and
    its [_shutdown] flag is still unset, and no shutdown has taken
    place. *)
Theorem in_time_result_unchanged fn a t kw s secs o :
  binds kw ->
  kw !! "_ctx_dict" = None ->
  fn a kw (ctx_of caller s) = Finishes secs o ->
  finished_in (Finishes secs o) t = true ->
  (forall e, o = Raise e -> is_FutureTimeout e = false) ->
  let out := timeout_handler caller mutate fn a (Some t) kw s in
  fst out = Done o /\
  pool (snd out) = Some {| max_workers := None; _shutdown := false; submitted := 1 |} /\
  released (snd out) = false /\
  filter is_shutdown (trace (snd out)) = filter is_shutdown (trace s).
Proof.
  intros Hb Hkw Hr Hf Ho. cbv zeta. rewrite timed_call by assumption. cbv zeta.
  rewrite Hr. cbn [fst snd pool trace]. rewrite waited_finished by exact Hf.
  split; [|split; [reflexivity|split; [reflexivity|]]].
  - destruct o as [v|e]; [reflexivity|]. rewrite (Ho e eq_refl). reflexivity.
  - rewrite filter_app. cbn. apply app_nil_r.
Qed.

End Calls.

Lemma binds_empty : binds ∅.
Proof. split; reflexivity. Qed.

Lemma no_timeout_is_direct_call_witness :
  binds {[ "_ctx_dict" := VInt 3 ]} /\
  fst (timeout_handler 0%nat id quick_seven [VInt 1] None
         {[ "_ctx_dict" := VInt 3 ]} idle) = Done (Return (VInt 7)) /\
  trace (snd (timeout_handler 0%nat id quick_seven [VInt 1] None
                {[ "_ctx_dict" := VInt 3 ]} idle))
    = [EvCall 0%nat [VInt 1] {[ "_ctx_dict" := VInt 3 ]} ∅].
Proof.
  assert (Hb : binds {[ "_ctx_dict" := VInt 3 ]}) by (split; reflexivity).
  split; [exact Hb|].
  destruct (no_timeout_is_direct_call 0%nat id quick_seven [VInt 1]
              {[ "_ctx_dict" := VInt 3 ]} idle Hb) as (Hr & Ht & _).
  split; [exact Hr | exact Ht].
Defined.

(** C3 as it is stated fails on keyword arguments that use a name of
    the signature: called directly with [fn=3], [read_fn] returns 3, but
    [timeout_handler(read_fn, fn=3)] cannot bind [fn] twice and raises
    [TypeError]. *)
Lemma keyword_fn_does_not_bind :
  ~ no_timeout_claim 0%nat id read_fn [] {[ "fn" := VInt 3 ]} idle.
Proof.
  intros (H & _). vm_compute in H. discriminate H.
Qed.

Lemma ctx_dict_keyword_is_reserved_witness :
  binds {[ "_ctx_dict" := VInt 3 ]} /\
  is_Some (({[ "_ctx_dict" := VInt 3 ]} : gmap string value) !! "_ctx_dict") /\
  fst (timeout_handler 0%nat rename_flow read_flow [] (Some 5)
         {[ "_ctx_dict" := VInt 3 ]} in_flow)
    = Done (Raise duplicate_ctx_dict) /\
  trace (snd (timeout_handler 0%nat rename_flow read_flow [] (Some 5)
                {[ "_ctx_dict" := VInt 3 ]} in_flow))
    = [EvPool; EvToDict 0%nat].
Proof.
  assert (Hb : binds {[ "_ctx_dict" := VInt 3 ]}) by (split; reflexivity).
  assert (H : is_Some (({[ "_ctx_dict" := VInt 3 ]} : gmap string value) !! "_ctx_dict"))
    by (eexists; reflexivity).
  split; [exact Hb|]. split; [exact H|].
  destruct (ctx_dict_keyword_is_reserved 0%nat rename_flow read_flow [] 5
              {[ "_ctx_dict" := VInt 3 ]} in_flow Hb H) as (Hr & _ & Ht & _).
  split; [exact Hr | exact Ht].
Defined.

Lemma task_runs_under_call_time_snapshot_witness :
  binds ∅ /\
  (∅ : gmap string value) !! "_ctx_dict" = None /\
  fst (timeout_handler 0%nat rename_flow read_flow [] (Some 5) ∅ in_flow)
    = Done (Return (VStr "etl")) /\
  ctx_of 0%nat (snd (timeout_handler 0%nat rename_flow read_flow [] (Some 5) ∅ in_flow))
    = {[ "flow_name" := VStr "other" ]} /\
  new_thread 0%nat in_flow ≠ 0%nat.
Proof.
  assert (Hb : binds ∅) by (split; reflexivity).
  assert (Hkw : (∅ : gmap string value) !! "_ctx_dict" = None) by reflexivity.
  split; [exact Hb|]. split; [exact Hkw|]. split; [vm_compute; reflexivity|].
  destruct (task_runs_under_call_time_snapshot 0%nat rename_flow read_flow [] 5 ∅
              in_flow Hb Hkw) as (Hw & _ & Hc & _).
  split; [|exact Hw].
  rewrite Hc. vm_compute. reflexivity.
Defined.

Lemma in_time_result_unchanged_witness :
  binds ∅ /\
  (∅ : gmap string value) !! "_ctx_dict" = None /\
  quick_seven [] ∅ (ctx_of 0%nat idle) = Finishes 1 (Return (VInt 7)) /\
  finished_in (Finishes 1 (Return (VInt 7))) 10 = true /\
  fst (timeout_handler 0%nat id quick_seven [] (Some 10) ∅ idle) = Done (Return (VInt 7)) /\
  released (snd (timeout_handler 0%nat id quick_seven [] (Some 10) ∅ idle)) = false.
Proof.
  assert (Hb : binds ∅) by (split; reflexivity).
  assert (Hkw : (∅ : gmap string value) !! "_ctx_dict" = None) by reflexivity.
  split; [exact Hb|]. split; [exact Hkw|]. split; [reflexivity|]. split; [reflexivity|].
  destruct (in_time_result_unchanged 0%nat id quick_seven [] 10 ∅ idle 1
              (Return (VInt 7)) Hb Hkw eq_refl eq_refl) as (Hr & _ & Hrel & _).
  - intros e He. discriminate He.
  - split; [exact Hr | exact Hrel].
Defined.

(** C6 as it is stated fails on a task that returns 7 within the
    deadline: the value comes back, but the executor of the call has not
    been shut down when [timeout_handler] returns. *)
Lemma executor_is_not_shut_down :
  ~ in_time_claim 0%nat id quick_seven [] 10 ∅ idle.
Proof.
  intros H.
  destruct (H (lookup_empty _) 1 (Return (VInt 7)) eq_refl eq_refl) as [_ Hrel].
  vm_compute in Hrel. discriminate Hrel.
Qed.

(** C2, where the code departs from it.  A task that raises
    [concurrent.futures.TimeoutError] at once is finished well within a
    deadline of 10 seconds; called directly ([timeout=None]) its
    exception comes back as it is, but with the timeout the [except
    FutureTimeout] clause takes it for an elapsed deadline and
    [timeout_handler] raises [TimeoutError("Execution timed out.")]
    although no deadline elapsed. *)
Theorem task_timeout_error_is_rewritten :
  finished_in (raises_future_timeout [] ∅ (ctx_of 0%nat idle)) 10 = true /\
  fst (timeout_handler 0%nat id raises_future_timeout [] None ∅ idle)
    = Done (Raise (Exn FutureTimeout "")) /\
  fst (timeout_handler 0%nat id raises_future_timeout [] (Some 10) ∅ idle)
    = Done (Raise (Exn TimeoutError "Execution timed out.")).
Proof. vm_compute. auto. Qed.

End ThFacts.

(** ** More facts about Heartbeat and run_with_heartbeat *)

Module HbMore.
Import Hb HbFacts.

Lemma looper_from_stops h rest fl : forall iters n,
  looper_from h (fl ++ true :: rest) iters n = looper_from h (fl ++ [true]) iters n.
Proof.
  induction fl as [|b fl IH]; intros iters n; [reflexivity|].
  destruct b; [reflexivity|]. cbn [app looper_from].
  destruct (looper_body h iters n) as [evs [[i' n']|e]]; [|reflexivity].
  rewrite IH. reflexivity.
Qed.

Lemma looper_from_leaves h fl : forall iters n j,
  snd (looper_from h (fl ++ [true]) iters n) <> Running j.
Proof.
  induction fl as [|b fl IH]; intros iters n j; [discriminate|].
  destruct b; [discriminate|]. cbn [app looper_from].
  destruct (looper_body h iters n) as [evs [[i' n']|e]]; [|discriminate].
  specialize (IH i' n' j).
  destruct (looper_from h (fl ++ [true]) i' n') as [rest fin]. exact IH.
Qed.

(** X5.  Whatever the Heartbeat, the loop leaves at the first test that
    reads [_exit] set: the values it would have read afterwards do not
    matter, it does nothing after that test, and it is never left
    running. *)
Theorem loop_stops_at_first_set_flag h fl rest n :
  looper h (fl ++ true :: rest) n = looper h (fl ++ [true]) n /\
  forall j, snd (looper h (fl ++ true :: rest) n) <> Running j.
Proof.
  unfold looper. rewrite looper_from_stops. split; [reflexivity|].
  apply looper_from_leaves.
Qed.

(** X1.  A Heartbeat built with interval 0 has rate 0.  [start()] returns
    normally, but the loop thread dies on its first pass with
    [ZeroDivisionError] ([iters % self.rate]) before it calls the callback
    once; the exception stays in the future, and [cancel()] still returns
    normally. *)
Theorem zero_interval_loop_dies f flags n :
  let h := Heartbeat__init__ 0 f in
  let out := start (false :: flags) (init_state h) in
  rate h = 0 /\
  looper h (false :: flags) n
    = ([], Died (Exn ZeroDivisionError "integer division or modulo by zero")) /\
  fst out = Return tt /\
  background (snd out) = [] /\
  fut (timer (snd out))
    = Some (Died (Exn ZeroDivisionError "integer division or modulo by zero")) /\
  fst (cancel (snd out)) = Return tt.
Proof.
  cbv zeta. rewrite start_eq, cancel_eq. repeat split.
Qed.


Lemma looper_from_events_positive itv1 itv2 f flags :
  1 <= itv1 -> 1 <= itv2 ->
  forall i1 i2 n,
    fst (looper_from (Heartbeat__init__ itv1 f) flags i1 n)
    = fst (looper_from (Heartbeat__init__ itv2 f) flags i2 n) /\
    same_end (snd (looper_from (Heartbeat__init__ itv1 f) flags i1 n))
             (snd (looper_from (Heartbeat__init__ itv2 f) flags i2 n)).
Proof.
  intros H1 H2. induction flags as [|b flags IH]; intros i1 i2 n; [cbn; auto|].
  destruct b; [cbn; auto|]. cbn [looper_from].
  rewrite !looper_body_positive by assumption.
  destruct (f n) as [v|e]; [|cbn; auto].
  specialize (IH ((i1 + 1) mod itv1) ((i2 + 1) mod itv2) (S n)).
  destruct (looper_from (Heartbeat__init__ itv1 f) flags _ _) as [r1 e1].
  destruct (looper_from (Heartbeat__init__ itv2 f) flags _ _) as [r2 e2].
  cbn in *. destruct IH as [-> He]. auto.
Qed.

(** X3.  For intervals of at least 1 the interval has no effect on what
    the loop thread does: for the same callback and the same flag reads,
    two Heartbeats with different intervals call back and sleep at the
    same ticks (every tick, one second apart) and end alike. *)
Theorem interval_does_not_change_firing itv1 itv2 f flags n :
  1 <= itv1 -> 1 <= itv2 ->
  fst (looper (Heartbeat__init__ itv1 f) flags n)
  = fst (looper (Heartbeat__init__ itv2 f) flags n) /\
  same_end (snd (looper (Heartbeat__init__ itv1 f) flags n))
           (snd (looper (Heartbeat__init__ itv2 f) flags n)).
Proof. intros H1 H2. apply looper_from_events_positive; assumption. Qed.

Lemma looper_from_counter_bound itv f flags :
  1 <= itv ->
  forall iters n j,
    0 <= iters < itv ->
    snd (looper_from (Heartbeat__init__ itv f) flags iters n) = Running j ->
    0 <= j < itv.
Proof.
  intros Hpos. induction flags as [|b flags IH]; intros iters n j Hi.
  - cbn. intros [= <-]. exact Hi.
  - destruct b; [discriminate|]. cbn [looper_from].
    rewrite looper_body_positive by assumption.
    destruct (f n) as [v|e]; [|discriminate].
    specialize (IH ((iters + 1) mod itv) (S n) j).
    destruct (looper_from _ flags _ _) as [r fin]. cbn in *.
    apply IH. apply Z.mod_pos_bound. lia.
Qed.

(** X4.  For an interval of at least 1 the counter of a running loop
    stays within [0, interval). *)
Theorem counter_stays_below_interval itv f flags n j :
  1 <= itv ->
  snd (looper (Heartbeat__init__ itv f) flags n) = Running j ->
  0 <= j < itv.
Proof.
  intros Hpos. apply looper_from_counter_bound; [exact Hpos|lia].
Qed.

Lemma looper_from_failing itv f e flags k :
  1 <= itv ->
  forall iters n,
    (forall m, (n <= m < n + k)%nat -> exists v, f m = Return v) ->
    f (n + k)%nat = Raise e ->
    looper_from (Heartbeat__init__ itv f) (repeat false (S k) ++ flags) iters n
    = (flat_map (fun j => [Beat j; Sleep 1]) (seq n k) ++ [Beat (n + k)], Died e).
Proof.
  intros Hpos. induction k as [|k IH]; intros iters n Hok Hbad.
  - cbn [repeat app looper_from]. rewrite looper_body_positive by assumption.
    rewrite Nat.add_0_r in Hbad. rewrite Hbad, Nat.add_0_r. reflexivity.
  - change (repeat false (S (S k)) ++ flags)
      with (false :: (repeat false (S k) ++ flags)).
    cbn [looper_from]. rewrite looper_body_positive by assumption.
    destruct (Hok n) as [v ->]; [lia|].
    rewrite (IH ((iters + 1) mod itv) (S n)).
    + cbn [seq flat_map app]. rewrite Nat.add_succ_r. reflexivity.
    + intros m Hm. apply Hok. lia.
    + rewrite <- Hbad. f_equal. lia.
Qed.

(** X6.  For an interval of at least 1, when the callback answers [k]
    times and raises on its next invocation, the loop calls back and
    sleeps [k] times, calls back once more and dies of that exception: no
    sleep and no callback follow, whatever the flag reads later. *)
Theorem failing_callback_ends_loop itv f e flags k n :
  1 <= itv ->
  (forall m, (n <= m < n + k)%nat -> exists v, f m = Return v) ->
  f (n + k)%nat = Raise e ->
  looper (Heartbeat__init__ itv f) (repeat false (S k) ++ flags) n
  = (flat_map (fun j => [Beat j; Sleep 1]) (seq n k) ++ [Beat (n + k)], Died e).
Proof. intros. apply looper_from_failing; assumption. Qed.


Lemma started_attrs flags s :
  interval (timer (started flags s)) = interval (timer s) /\
  rate (timer (started flags s)) = rate (timer s) /\
  function (timer (started flags s)) = function (timer s) /\
  _exit (timer (started flags s)) = _exit (timer s).
Proof. repeat split. Qed.

Lemma cancelled_attrs s :
  interval (timer (cancelled s)) = interval (timer s) /\
  rate (timer (cancelled s)) = rate (timer s) /\
  function (timer (cancelled s)) = function (timer s) /\
  _exit (timer (cancelled s)) = true.
Proof. unfold cancelled. destruct (executor (timer s)); repeat split. Qed.

(** X7.  No sequence of [start()] and [cancel()] calls changes
    [interval], [rate] or [function] of a Heartbeat, and none clears
    [_exit]: once set it stays set, and it is set after any sequence that
    holds a [cancel()]. *)
Theorem exit_flag_is_never_cleared flags cs s :
  let s' := snd (run_calls flags cs s) in
  interval (timer s') = interval (timer s) /\
  rate (timer s') = rate (timer s) /\
  function (timer s') = function (timer s) /\
  (_exit (timer s) = true -> _exit (timer s') = true) /\
  (In CallCancel cs -> _exit (timer s') = true).
Proof.
  cbv zeta. revert s. induction cs as [|c cs IH]; intros s.
  - cbn. repeat split; [auto | intros []].
  - destruct c; cbn [run_calls]; unfold bind.
    + rewrite start_eq.
      destruct (IH (started flags s)) as (Hi & Hr & Hf & He & Hc).
      destruct (started_attrs flags s) as (Hi' & Hr' & Hf' & He').
      rewrite Hi, Hr, Hf, Hi', Hr', Hf'. repeat split.
      * intros H. apply He. rewrite He'. exact H.
      * intros [H|H]; [discriminate H | exact (Hc H)].
    + rewrite cancel_eq.
      destruct (IH (cancelled s)) as (Hi & Hr & Hf & He & Hc).
      destruct (cancelled_attrs s) as (Hi' & Hr' & Hf' & He').
      rewrite Hi, Hr, Hf, Hi', Hr', Hf'. repeat split; intros _; exact (He He').
Qed.

Lemma exit_flag_is_never_cleared_witness :
  In CallCancel [CallCancel; CallStart; CallStart] /\
  _exit (timer (snd (run_calls [false; true] [CallCancel; CallStart; CallStart]
                       (init_state (Heartbeat__init__ 30 alive))))) = true.
Proof.
  assert (H : In CallCancel [CallCancel; CallStart; CallStart]) by (left; reflexivity).
  split; [exact H|].
  destruct (exit_flag_is_never_cleared [false; true] [CallCancel; CallStart; CallStart]
              (init_state (Heartbeat__init__ 30 alive))) as (_ & _ & _ & _ & Hc).
  exact (Hc H).
Defined.

Lemma consistent_started flags s : consistent (timer (started flags s)).
Proof.
  split; [split; discriminate|].
  intros ex [= <-]. cbn. repeat split. discriminate.
Qed.

Lemma consistent_cancelled s : consistent (timer s) -> consistent (timer (cancelled s)).
Proof.
  intros [Hiff Hex]. unfold cancelled.
  destruct (executor (timer s)) as [ex|] eqn:E.
  - destruct (Hex ex eq_refl) as (Hm & Hs & _).
    split; [split; [discriminate|]|].
    + cbn. intros Hf. apply Hiff in Hf. discriminate Hf.
    + intros ex' [= <-]. cbn. auto.
  - split; [cbn; rewrite E; exact Hiff|].
    cbn. rewrite E. discriminate.
Qed.

(** X8.  After any sequence of [start()] and [cancel()] calls on a new
    Heartbeat, [executor] and [fut] exist together; the executor it holds
    was built for two workers and was given exactly one task, and it is
    shut down only if [_exit] is set. *)
Theorem heartbeat_stays_consistent flags cs itv f :
  consistent (timer (snd (run_calls flags cs (init_state (Heartbeat__init__ itv f))))).
Proof.
  assert (H0 : consistent (timer (init_state (Heartbeat__init__ itv f))))
    by (split; [split; reflexivity | discriminate]).
  revert H0. generalize (init_state (Heartbeat__init__ itv f)).
  induction cs as [|c cs IH]; intros s Hs; [exact Hs|].
  destruct c; cbn [run_calls]; unfold bind.
  - rewrite start_eq. apply IH, consistent_started.
  - rewrite cancel_eq. apply IH, consistent_cancelled, Hs.
Qed.

(** X9.  When the probe returns a truthy value, [inner] launches the loop
    before the wrapped method runs and shuts its executor down after it:
    probe, executor, submit, method, cancel, shutdown.  The loop is the
    one of the Heartbeat built from the configured interval, its callback
    invocations counted from 1 (the probe was invocation 0); the outcome
    of [inner] is that of the method. *)
Theorem probe_truthy_starts_and_stops flags hi rm self a kw v :
  _heartbeat self 0%nat = Return v ->
  truthy v = true ->
  let out := inner flags hi rm self a kw in
  let lp := looper (Heartbeat__init__ hi (_heartbeat self)) flags 1 in
  fst out = rm self a kw /\
  trace (snd out) = [EvProbe 0; EvPool 2; EvSubmit; EvRun a kw; EvCancel; EvShutdown] /\
  background (snd out) = fst lp /\
  fut (timer (snd out)) = Some (snd lp) /\
  executor (timer (snd out))
    = Some {| max_workers := Some 2; _shutdown := true; submitted := 1 |} /\
  _exit (timer (snd out)) = true.
Proof.
  intros Hp Ht. cbv zeta. rewrite inner_eq, inner_try_eq. cbv zeta.
  change (calls (init_state _)) with 0%nat. rewrite Hp, Ht.
  repeat split.
Qed.

Lemma probe_truthy_starts_and_stops_witness :
  _heartbeat chatty 0%nat = Return (VStr "ok") /\
  truthy (VStr "ok") = true /\
  trace (snd (inner [false; true] 30 returns_seven chatty [] ∅))
    = [EvProbe 0; EvPool 2; EvSubmit; EvRun [] ∅; EvCancel; EvShutdown] /\
  background (snd (inner [false; true] 30 returns_seven chatty [] ∅))
    = fst (looper (Heartbeat__init__ 30 (_heartbeat chatty)) [false; true] 1).
Proof.
  split; [reflexivity|]. split; [reflexivity|].
  destruct (probe_truthy_starts_and_stops [false; true] 30 returns_seven chatty [] ∅
              (VStr "ok") eq_refl eq_refl) as (_ & Ht & Hb & _).
  split; [exact Ht | exact Hb].
Defined.

(** X10.  In every call of [inner] a loop is submitted exactly when the
    probe returns a truthy value, and then only once; a message is logged
    exactly when the probe raises an instance of [Exception], and then
    only once; and [inner] itself invokes [self._heartbeat] exactly
    once. *)
Theorem loop_started_iff_probe_truthy flags hi rm self a kw :
  let out := inner flags hi rm self a kw in
  filter is_submit (trace (snd out))
  = match _heartbeat self 0%nat with
    | Return v => if truthy v then [EvSubmit] else []
    | Raise _ => []
    end /\
  filter is_log (trace (snd out))
  = match _heartbeat self 0%nat with
    | Return _ => []
    | Raise e => if is_Exception e then [EvLog failed_to_start] else []
    end /\
  calls (snd out) = 1%nat.
Proof.
  cbv zeta. rewrite inner_eq, inner_try_eq. cbv zeta.
  change (calls (init_state _)) with 0%nat.
  destruct (_heartbeat self 0%nat) as [v|e];
    [destruct (truthy v)|destruct (is_Exception e)]; repeat split.
Qed.

(** X11.  When the probe raises an exception that is no instance of
    [Exception], [inner] raises that exception: nothing is logged, no loop
    is started, the wrapped method is not called, and [cancel()] has
    run. *)
Theorem probe_base_exception_propagates flags hi rm self a kw e :
  _heartbeat self 0%nat = Raise e ->
  is_Exception e = false ->
  let out := inner flags hi rm self a kw in
  fst out = Raise e /\
  trace (snd out) = [EvProbe 0; EvCancel] /\
  background (snd out) = [] /\
  _exit (timer (snd out)) = true.
Proof.
  intros Hp He. cbv zeta. rewrite inner_eq, inner_try_eq. cbv zeta.
  change (calls (init_state _)) with 0%nat. rewrite Hp, He.
  repeat split.
Qed.

Lemma probe_base_exception_propagates_witness :
  _heartbeat interrupted 0%nat = Raise (Exn KeyboardInterrupt "") /\
  is_Exception (Exn KeyboardInterrupt "") = false /\
  fst (inner [false; true] 30 returns_seven interrupted [VInt 1] ∅)
    = Raise (Exn KeyboardInterrupt "") /\
  trace (snd (inner [false; true] 30 returns_seven interrupted [VInt 1] ∅))
    = [EvProbe 0; EvCancel].
Proof.
  split; [reflexivity|]. split; [reflexivity|].
  destruct (probe_base_exception_propagates [false; true] 30 returns_seven interrupted
              [VInt 1] ∅ (Exn KeyboardInterrupt "") eq_refl eq_refl) as (Hr & Ht & _).
  split; [exact Hr | exact Ht].
Defined.

(** X12.  Unless the probe raises an exception outside [Exception], the
    wrapped method is called exactly once, with the arguments [inner] was
    given, after the probe and before [cancel()], and its outcome is the
    outcome of [inner]. *)
Theorem method_called_once_with_its_arguments flags hi rm self a kw :
  (forall e, _heartbeat self 0%nat = Raise e -> is_Exception e = true) ->
  let out := inner flags hi rm self a kw in
  fst out = rm self a kw /\
  filter is_run (trace (snd out)) = [EvRun a kw] /\
  exists before after,
    trace (snd out) = EvProbe 0 :: before ++ EvRun a kw :: EvCancel :: after /\
    filter is_run before = [] /\ filter is_run after = [].
Proof.
  intros Hok. cbv zeta. rewrite inner_eq, inner_try_eq. cbv zeta.
  change (calls (init_state _)) with 0%nat.
  destruct (_heartbeat self 0%nat) as [v|e]; [destruct (truthy v)|rewrite (Hok e eq_refl)].
  - repeat split. exists [EvPool 2; EvSubmit], [EvShutdown]. repeat split.
  - repeat split. exists [], []. repeat split.
  - repeat split. exists [EvLog failed_to_start], []. repeat split.
Qed.


Lemma interval_does_not_change_firing_witness :
  1 <= 1 /\ 1 <= 300 /\
  fst (looper (Heartbeat__init__ 1 alive) [false; false; true] 0)
    = fst (looper (Heartbeat__init__ 300 alive) [false; false; true] 0).
Proof.
  assert (H1 : 1 <= 1) by lia. assert (H2 : 1 <= 300) by lia.
  split; [exact H1|]. split; [exact H2|].
  apply (interval_does_not_change_firing 1 300 alive [false; false; true] 0 H1 H2).
Defined.

Lemma counter_stays_below_interval_witness :
  1 <= 3 /\
  snd (looper (Heartbeat__init__ 3 alive) [false; false; false; false] 0) = Running 1 /\
  0 <= 1 < 3.
Proof.
  assert (H : 1 <= 3) by lia.
  assert (Hr : snd (looper (Heartbeat__init__ 3 alive) [false; false; false; false] 0)
               = Running 1) by reflexivity.
  split; [exact H|]. split; [exact Hr|].
  exact (counter_stays_below_interval 3 alive [false; false; false; false] 0 1 H Hr).
Defined.

Lemma failing_callback_ends_loop_witness :
  1 <= 30 /\
  lost_at_third 2%nat = Raise (Exn Exception "connection lost") /\
  looper (Heartbeat__init__ 30 lost_at_third)
    (repeat false 3 ++ [false; false; true]) 0
    = ([Beat 0; Sleep 1; Beat 1; Sleep 1; Beat 2],
       Died (Exn Exception "connection lost")).
Proof.
  assert (H : 1 <= 30) by lia.
  split; [exact H|]. split; [reflexivity|].
  apply (failing_callback_ends_loop 30 lost_at_third (Exn Exception "connection lost")
           [false; false; true] 2%nat 0%nat H).
  - intros m Hm. destruct m as [|[|m]]; [eexists; reflexivity | eexists; reflexivity | lia].
  - reflexivity.
Defined.

Lemma method_called_once_with_its_arguments_witness :
  (forall e, _heartbeat broken 0%nat = Raise e -> is_Exception e = true) /\
  fst (inner [true] 30 returns_seven broken [VInt 1] ∅) = Return (VInt 7) /\
  filter is_run (trace (snd (inner [true] 30 returns_seven broken [VInt 1] ∅)))
    = [EvRun [VInt 1] ∅].
Proof.
  assert (H : forall e, _heartbeat broken 0%nat = Raise e -> is_Exception e = true)
    by (intros e [= <-]; reflexivity).
  split; [exact H|].
  destruct (method_called_once_with_its_arguments [true] 30 returns_seven broken
              [VInt 1] ∅ H) as (Hr & Hf & _).
  split; [exact Hr | exact Hf].
Defined.

End HbMore.

(** ** More facts about timeout_handler *)

Module ThMore.
Import Th ThFacts.

Lemma bind_arguments_cases kw :
  binds kw \/ exists e, bind_arguments kw = Raise e /\ class_of e = TypeError.
Proof.
  unfold binds, bind_arguments.
  destruct (kw !! "timeout"); [right; eauto|].
  destruct (kw !! "fn"); [right; eauto|]. left. auto.
Qed.

Section Calls.
Variables (caller : tid) (mutate : gmap string value -> gmap string value).

(** X13.  With a timeout, when [fut.result] does not find the task
    finished (it may never finish), [timeout_handler] raises
    [TimeoutError("Execution timed out.")], or the [OverflowError] of the
    wait when the timeout is above [threading.TIMEOUT_MAX].  The task is
    not withdrawn: it was entered on the worker thread, and the executor,
    holding that one task, is not shut down. *)
Theorem elapsed_deadline_abandons_the_task fn a t kw s :
  binds kw ->
  kw !! "_ctx_dict" = None ->
  finished_in (fn a kw (ctx_of caller s)) t = false ->
  let out := timeout_handler caller mutate fn a (Some t) kw s in
  fst out = Done (Raise (if TIMEOUT_MAX <? t then too_large else timed_out)) /\
  In (EvCall (new_thread caller s) a kw (ctx_of caller s)) (trace (snd out)) /\
  filter is_shutdown (trace (snd out)) = filter is_shutdown (trace s) /\
  pool (snd out) = Some {| max_workers := None; _shutdown := false; submitted := 1 |}.
Proof.
  intros Hb Hkw Hf. cbv zeta.
  rewrite timed_call by assumption. cbv zeta. cbn [fst snd trace pool].
  rewrite waited_unfinished by exact Hf.
  split; [reflexivity|]. split; [|split; [|reflexivity]].
  - apply in_or_app. right. cbn. auto 10.
  - rewrite !filter_app. cbn.
    destruct (fn a kw (ctx_of caller s)); cbn; now rewrite app_nil_r.
Qed.


(** X15.  With a timeout (and keyword arguments that bind and leave
    [_ctx_dict] free), the outcome of [timeout_handler] is
    [TimeoutError("Execution timed out.")] exactly when [fut.result] did
    not find the task finished after a wait of at most
    [threading.TIMEOUT_MAX] seconds, or found it finished by raising
    [concurrent.futures.TimeoutError], or found it finished by raising
    that very [TimeoutError] itself. *)
Theorem timeout_error_exactly_when fn a t kw s :
  binds kw ->
  kw !! "_ctx_dict" = None ->
  let r := fn a kw (ctx_of caller s) in
  fst (timeout_handler caller mutate fn a (Some t) kw s) = Done (Raise timed_out)
  <->
  ((finished_in r t = false /\ t <= TIMEOUT_MAX) \/
   exists secs e, r = Finishes secs (Raise e) /\
                  finished_in r t = true /\
                  (is_FutureTimeout e = true \/ e = timed_out)).
Proof.
  intros Hb Hkw. cbv zeta. rewrite timed_call by assumption. cbv zeta. cbn [fst].
  destruct (finished_in (fn a kw (ctx_of caller s)) t) eqn:Hf.
  - destruct (fn a kw (ctx_of caller s)) as [secs o|] eqn:Hr; [|discriminate Hf].
    rewrite waited_finished by exact Hf.
    destruct o as [v|e].
    + split; [discriminate|].
      intros [[H _]|(secs' & e & [= _ H] & _)]; discriminate.
    + destruct (is_FutureTimeout e) eqn:He.
      * split; [|reflexivity]. intros _. right. eauto 6.
      * split.
        -- intros [= ->]. right. eauto 6.
        -- intros [[H _]|(secs' & e' & [= _ <-] & _ & [H|H])]; try discriminate.
           ++ rewrite H in He. discriminate.
           ++ rewrite H. reflexivity.
  - rewrite waited_unfinished by exact Hf.
    destruct (Z.ltb_spec TIMEOUT_MAX t).
    + split; [discriminate|].
      intros [[_ H']|(secs & e & _ & H' & _)]; [lia|discriminate].
    + split; [|reflexivity]. intros _. left. split; [reflexivity|assumption].
Qed.

(** X16.  With a timeout, [fn] is called at most once, with the arguments
    [timeout_handler] was given, and never on the calling thread. *)
Theorem timed_call_keeps_fn_off_the_caller fn a t kw s :
  let out := timeout_handler caller mutate fn a (Some t) kw s in
  exists new,
    trace (snd out) = trace s ++ new /\
    (length (filter is_call new) <= 1)%nat /\
    Forall (off_caller caller a kw) new.
Proof.
  cbv zeta. destruct (bind_arguments_cases kw) as [Hb|(e & He & _)].
  - destruct (kw !! "_ctx_dict") as [v|] eqn:Hkw.
    + rewrite reserved_call by (rewrite ?Hkw; eauto).
      eexists. split; [reflexivity|]. split; [vm_compute; lia|]. repeat constructor.
    + rewrite timed_call by assumption. cbv zeta.
      pose proof (new_thread_not_caller caller s) as Hw.
      eexists. split; [reflexivity|].
      destruct (fn a kw (ctx_of caller s)); (split; [vm_compute; lia|]);
        repeat constructor; exact Hw.
  - rewrite (unbound_call caller mutate fn a (Some t) kw s e He).
    exists []. split; [symmetry; apply app_nil_r|]. split; [cbn; lia|constructor].
Qed.

End Calls.

(** A timeout above [threading.TIMEOUT_MAX]: the wait for a task that
    takes a second is refused with [OverflowError], although the task
    ends long before the deadline; a task already finished when its
    result is asked for is not waited for, and its value comes back. *)
Example oversized_timeout_overflows :
  finished_in (quick_seven [] ∅ (ctx_of 0%nat idle)) 9223372037 = false /\
  fst (timeout_handler 0%nat id quick_seven [] (Some 9223372037) ∅ idle)
    = Done (Raise too_large) /\
  fst (timeout_handler 0%nat id read_fn [] (Some 9223372037) ∅ idle)
    = Done (Return VNone).
Proof. vm_compute. auto. Qed.

Lemma elapsed_deadline_abandons_the_task_witness :
  binds ∅ /\
  (∅ : gmap string value) !! "_ctx_dict" = None /\
  finished_in (never_returns [] ∅ (ctx_of 0%nat idle)) 5 = false /\
  fst (timeout_handler 0%nat id never_returns [] (Some 5) ∅ idle) = Done (Raise timed_out) /\
  fst (timeout_handler 0%nat id never_returns [] (Some 9223372037) ∅ idle)
    = Done (Raise too_large) /\
  fst (timeout_handler 0%nat id never_returns [] None ∅ idle) = NoReturn.
Proof.
  assert (Hkw : (∅ : gmap string value) !! "_ctx_dict" = None) by reflexivity.
  split; [exact binds_empty|]. split; [exact Hkw|]. split; [reflexivity|].
  destruct (elapsed_deadline_abandons_the_task 0%nat id never_returns [] 5 ∅ idle
              binds_empty Hkw eq_refl) as (Hr & _).
  destruct (elapsed_deadline_abandons_the_task 0%nat id never_returns [] 9223372037 ∅ idle
              binds_empty Hkw eq_refl) as (Hr' & _).
  split; [exact Hr|]. split; [exact Hr' | reflexivity].
Defined.

Lemma timeout_error_exactly_when_witness :
  binds ∅ /\
  (∅ : gmap string value) !! "_ctx_dict" = None /\
  fst (timeout_handler 0%nat id slow_seven [] (Some 5) ∅ idle) = Done (Raise timed_out) /\
  fst (timeout_handler 0%nat id raises_future_timeout [] (Some 5) ∅ idle)
    = Done (Raise timed_out).
Proof.
  assert (Hkw : (∅ : gmap string value) !! "_ctx_dict" = None) by reflexivity.
  split; [exact binds_empty|]. split; [exact Hkw|]. split.
  - apply (timeout_error_exactly_when 0%nat id slow_seven [] 5 ∅ idle binds_empty Hkw).
    left. split; [reflexivity|]. unfold TIMEOUT_MAX. lia.
  - apply (timeout_error_exactly_when 0%nat id raises_future_timeout [] 5 ∅ idle
             binds_empty Hkw).
    right. exists 0, (Exn FutureTimeout "").
    split; [reflexivity|]. split; [reflexivity|]. left. reflexivity.
Defined.

End ThMore.
